(** * The tool-invocation renderer of [src/components/ui/tool.tsx]

    A shallow embedding of the [ToolInvocations] component and of its helper
    [capitalizeAndReplaceUnderscores], with the properties of the rendering
    contract proved over it.

    - JavaScript strings are sequences of UTF-16 code units ([jsstring]).
    - Runtime values ([value]) are the JSON-representable ones plus
      [undefined]; the fields [args] and [result] of an invocation are such
      values, because the component inspects their shape at run time
      ([args || {}], [Array.isArray], [typeof], [?.]).
    - A JavaScript operation that can throw returns a [Completion]; the
      component itself runs in [M], which adds the log of the calls made to
      the [onImageClick] callback.
    - The output is the React element tree ([node]). *)

From Stdlib Require Import List String Ascii NArith ZArith Bool Arith Lia.
From Stdlib Require DecimalString.
Import ListNotations.

Set Implicit Arguments.
Set Warnings "-register-all".

(* ================================================================= *)
(** ** Strings *)

Definition codeunit := N.
Definition jsstring := list codeunit.

(** An ASCII literal as a JavaScript string. *)
Definition js (s : string) : jsstring :=
  map N_of_ascii (list_ascii_of_string s).

Fixpoint jsstring_eqb (s t : jsstring) : bool :=
  match s, t with
  | [], [] => true
  | a :: s', b :: t' => (a =? b)%N && jsstring_eqb s' t'
  | _, _ => false
  end.

(** What the JavaScript engine provides and the component does not define:
    numbers with their conversions, the Unicode upper-case table outside
    ASCII, and function objects (the callback). *)
Class Host := {
  number : Type;
  Number_toString : number -> jsstring;
  Number_toBoolean : number -> bool;
  upperNonASCII : codeunit -> jsstring;
  callback : Type
}.

(** A host for closed examples: integer numbers printed in decimal, no case
    mapping outside ASCII, callbacks known by name. *)
Definition plainHost : Host :=
  {| number := Z;
     Number_toString :=
       fun z => map N_of_ascii
                  (list_ascii_of_string
                     (DecimalString.NilZero.string_of_int (Z.to_int z)));
     Number_toBoolean := fun z => negb (z =? 0)%Z;
     upperNonASCII := fun c => [c];
     callback := string |}.

Module Str.

(** The [LineTerminator] code units, which [.] in a regular expression
    without the [s] flag does not match. *)
Definition isLineTerminator (c : codeunit) : bool :=
  ((c =? 10) || (c =? 13) || (c =? 0x2028) || (c =? 0x2029))%N.

(** [String.prototype.toUpperCase] on a string of one code unit [c].  The
    result can be longer than one unit.  ASCII is computed; U+2028 and U+2029
    have no case mapping; the rest of the table is the host's. *)
Definition toUpperCase1 `{Host} (c : codeunit) : jsstring :=
  if (c <? 128)%N then
    [if ((97 <=? c) && (c <=? 122))%N then (c - 32)%N else c]
  else if isLineTerminator c then [c]
  else upperNonASCII c.

Fixpoint isPrefix (p s : jsstring) : bool :=
  match p, s with
  | [], _ => true
  | a :: p', b :: s' => (a =? b)%N && isPrefix p' s'
  | _ :: _, [] => false
  end.

(** Scan for a non-empty pattern, left to right; [skip] counts the units of
    the current match still to be dropped. *)
Fixpoint replaceAll_from (pat rep : jsstring) (skip : nat) (s : jsstring)
  : jsstring :=
  match s with
  | [] => []
  | c :: r =>
      match skip with
      | S k => replaceAll_from pat rep k r
      | O =>
          if isPrefix pat s
          then rep ++ replaceAll_from pat rep (List.length pat - 1) r
          else c :: replaceAll_from pat rep 0 r
      end
  end.

(** [s.replaceAll(pat, rep)] for a string pattern and a replacement string
    without [$] patterns.  The empty pattern matches at every position. *)
Definition replaceAll (pat rep s : jsstring) : jsstring :=
  match pat with
  | [] => rep ++ flat_map (fun c => c :: rep) s
  | _ :: _ => replaceAll_from pat rep 0 s
  end.

(** [s.replace(/^./, f)]: the expression is anchored at the start and not
    global, and [.] takes one code unit that is not a line terminator; the
    match is replaced by what the function returns for it. *)
Definition replace_caret_dot (f : codeunit -> jsstring) (s : jsstring)
  : jsstring :=
  match s with
  | [] => []
  | c :: r => if isLineTerminator c then s else f c ++ r
  end.

End Str.

(** Lines 28-30. *)
Definition capitalizeAndReplaceUnderscores `{Host} (str : jsstring)
  : jsstring :=
  Str.replace_caret_dot (fun m => Str.toUpperCase1 m)
    (Str.replaceAll (js "_") (js " ") str).

(** The display-name rule in the words of the specification: every
    underscore becomes a space, then the first character only is put in upper
    case. *)
Module DisplayNameSpec.

Definition underscoresToSpaces (s : jsstring) : jsstring :=
  map (fun c => if (c =? 95)%N then 32%N else c) s.

Definition upperFirst `{Host} (s : jsstring) : jsstring :=
  match s with
  | [] => []
  | c :: r => Str.toUpperCase1 c ++ r
  end.

Definition displayName `{Host} (s : jsstring) : jsstring :=
  upperFirst (underscoresToSpaces s).

End DisplayNameSpec.

(* ================================================================= *)
(** ** Completions and the component's monad *)

Inductive error := TypeError.

(** The outcome of a JavaScript operation: a value, or a thrown error. *)
Inductive Completion (A : Type) :=
| Normal (a : A)
| Throw (e : error).
Arguments Normal {A} a.
Arguments Throw {A} e.

Definition bindC {A B} (c : Completion A) (k : A -> Completion B)
  : Completion B :=
  match c with
  | Normal a => k a
  | Throw e => Throw e
  end.

Notation "'let?' x ':=' c 'in' k" := (bindC c (fun x => k))
  (at level 10, x name, c at level 100, k at level 200).

Section Component.
Context `{Host}.

(** A call of the callback, as the host environment sees it. *)
Inductive event := Invoked (f : callback) (arg : jsstring).

(** Component code: a completion together with the calls made so far. *)
Definition M (A : Type) : Type := (Completion A * list event)%type.

Definition ret {A} (a : A) : M A := (Normal a, []).

Definition bind {A B} (m : M A) (k : A -> M B) : M B :=
  match m with
  | (Normal a, t) => let (r, t') := k a in (r, t ++ t')
  | (Throw e, t) => (Throw e, t)
  end.

Definition lift {A} (c : Completion A) : M A := (c, []).

Definition invoke (f : callback) (arg : jsstring) : M unit :=
  (Normal tt, [Invoked f arg]).

Notation "x <- m ;; k" := (bind m (fun x => k))
  (at level 61, m at next level, right associativity).

(** A computation that calls no callback. *)
Definition silent {A} (m : M A) : Prop := snd m = [].

(** [l.map(f)] with a callback that can throw: in order, stopping at the
    first exception. *)
Fixpoint mapM {A B} (f : A -> M B) (l : list A) : M (list B) :=
  match l with
  | [] => ret []
  | x :: r => y <- f x ;; ys <- mapM f r ;; ret (y :: ys)
  end.

(* ================================================================= *)
(** ** Runtime values *)

(** An object is the list of its own enumerable string-keyed properties in
    property order (what [Object.entries] enumerates). *)
Inductive value :=
| VUndefined
| VNull
| VBool (b : bool)
| VNumber (n : number)
| VString (s : jsstring)
| VArray (items : list value)
| VObject (props : list (jsstring * value)).

Fixpoint lookup (name : jsstring) (props : list (jsstring * value))
  : option value :=
  match props with
  | [] => None
  | (k, v) :: r => if jsstring_eqb k name then Some v else lookup name r
  end.

Definition ToBoolean (v : value) : bool :=
  match v with
  | VUndefined | VNull => false
  | VBool b => b
  | VNumber n => Number_toBoolean n
  | VString [] => false
  | VString (_ :: _) => true
  | VArray _ | VObject _ => true
  end.

(** [a || b] *)
Definition or_else (a b : value) : value :=
  if ToBoolean a then a else b.

(** [ToString], which is also [String(v)] and the conversion of a template
    literal on these values.  An array joins its elements with a comma,
    [undefined] and [null] elements giving the empty string.  An object goes
    through [OrdinaryToPrimitive]: [Object.prototype.toString] answers unless
    an own property named [toString] shadows it; such a property holds a
    value that is not callable, [valueOf] returns the object itself, and the
    conversion throws. *)
Fixpoint ToString (v : value) : Completion jsstring :=
  match v with
  | VUndefined => Normal (js "undefined")
  | VNull => Normal (js "null")
  | VBool b => Normal (js (if b then "true" else "false"))
  | VNumber n => Normal (Number_toString n)
  | VString s => Normal s
  | VArray items =>
      (fix join (l : list value) : Completion jsstring :=
         match l with
         | [] => Normal []
         | x :: r =>
             let? s := match x with
                       | VUndefined | VNull => Normal []
                       | _ => ToString x
                       end in
             match r with
             | [] => Normal s
             | _ :: _ => let? t := join r in Normal (s ++ js "," ++ t)
             end
         end) items
  | VObject props =>
      match lookup (js "toString") props with
      | Some _ => Throw TypeError
      | None => Normal (js "[object Object]")
      end
  end.

Definition typeof (v : value) : jsstring :=
  match v with
  | VUndefined => js "undefined"
  | VNull => js "object"
  | VBool _ => js "boolean"
  | VNumber _ => js "number"
  | VString _ => js "string"
  | VArray _ | VObject _ => js "object"
  end.

(** [v === s] for a string [s] *)
Definition strictEqualsString (v : value) (s : jsstring) : bool :=
  match v with
  | VString t => jsstring_eqb t s
  | _ => false
  end.

(** [v.name], for a name that is neither an array index, nor [length], nor
    a property of a built-in prototype: the four names the component reads
    ([type], [source], [media_type], [data]) are such names. *)
Definition GetV (v : value) (name : jsstring) : Completion value :=
  match v with
  | VUndefined | VNull => Throw TypeError
  | VObject props =>
      Normal (match lookup name props with
              | Some x => x
              | None => VUndefined
              end)
  | VBool _ | VNumber _ | VString _ | VArray _ => Normal VUndefined
  end.

(** [v?.name] *)
Definition optGetV (v : value) (name : jsstring) : Completion value :=
  match v with
  | VUndefined | VNull => Normal VUndefined
  | _ => GetV v name
  end.

Definition indexKey (i : nat) : jsstring :=
  js (DecimalString.NilZero.string_of_uint (Nat.to_uint i)).

Fixpoint indexed {A} (i : nat) (l : list A) : list (jsstring * A) :=
  match l with
  | [] => []
  | x :: r => (indexKey i, x) :: indexed (S i) r
  end.

(** [Object.entries(v)] *)
Definition Object_entries (v : value)
  : Completion (list (jsstring * value)) :=
  match v with
  | VUndefined | VNull => Throw TypeError
  | VObject props => Normal props
  | VArray items => Normal (indexed 0 items)
  | VString s => Normal (indexed 0 (map (fun c => VString [c]) s))
  | VBool _ | VNumber _ => Normal []
  end.

(** [l.find(p)] *)
Fixpoint Array_find (p : value -> Completion bool) (l : list value)
  : Completion value :=
  match l with
  | [] => Normal VUndefined
  | x :: r => let? b := p x in if b then Normal x else Array_find p r
  end.

(* ================================================================= *)
(** ** The data model (lines 4-23) *)

Inductive State := state_call | state_result | state_partial_call.

Definition State_eqb (a b : State) : bool :=
  match a, b with
  | state_call, state_call => true
  | state_result, state_result => true
  | state_partial_call, state_partial_call => true
  | _, _ => false
  end.

Record ToolInvocation := {
  toolCallId : jsstring;
  toolName : jsstring;
  args : value;
  state : State;
  result : value
}.

Record ToolRenderProps := {
  toolInvocations : option (list ToolInvocation);
  onImageClick : option callback
}.

(* ================================================================= *)
(** ** The element tree *)

Inductive tag := div | span | img | CheckIcon.

(** The props the component sets.  [className] is kept as the list of its
    class tokens, in order; an event handler is the computation it runs. *)
Record attributes := {
  key : option jsstring;
  className : list string;
  src : option jsstring;
  alt : option string;
  onClick : option (M unit)
}.

(** A child is an element, a JavaScript value in child position (React draws
    a string or a number as text and nothing for [undefined], [null] and the
    booleans) or an array of children. *)
Inductive node :=
| Element (t : tag) (a : attributes) (children : list node)
| Value (v : value)
| Items (l : list node).

Definition class (c : list string) : attributes :=
  {| key := None; className := c; src := None; alt := None;
     onClick := None |}.

Definition keyed (k : jsstring) (c : list string) : attributes :=
  {| key := Some k; className := c; src := None; alt := None;
     onClick := None |}.

(* ================================================================= *)
(** ** The component (lines 32-136) *)

(** Lines 65-73. *)
Definition indicator (st : State) : node :=
  if State_eqb st state_call then
    Element div
      (class ["size-4"; "animate-spin"; "rounded-full"; "border-2";
              "border-[--gray-12]"; "border-t-transparent"]%string) []
  else if State_eqb st state_result then
    Element span
      (class ["flex"; "size-4"; "items-center"; "justify-center";
              "text-[--gray-12]"]%string)
      [Element CheckIcon (class ["size-4"%string]) []]
  else Value (VBool false).

(** Lines 60-75. *)
Definition header (displayToolName : jsstring) (st : State) : node :=
  Element div
    (class ["inline-flex"; "items-center"; "justify-center"; "gap-1";
            "self-stretch"]%string)
    [Element div
       (class ["shrink"; "grow"; "basis-0"; "font-sans"; "text-sm";
               "font-medium"; "leading-tight"; "text-[--gray-12]"]%string)
       [Value (VString displayToolName)];
     Element div
       (class ["flex"; "size-5"; "items-center"; "justify-center"]%string)
       [indicator st]].

(** Lines 78-80. *)
Definition divider : node :=
  Element div
    (class ["flex"; "h-0"; "flex-col"; "items-start";
            "justify-start"]%string)
    [Element div
       (class ["h-0"; "self-stretch"; "border"; "border-[--gray-3]"]%string)
       []].

(** Lines 85-100, the callback of [entries.map]. *)
Definition paramRow (entry : jsstring * value) : M node :=
  let (paramName, paramValue) := entry in
  let displayParamName := capitalizeAndReplaceUnderscores paramName in
  text <- lift (ToString paramValue) ;;
  ret (Element div
         (keyed paramName
            ["inline-flex"; "h-5"; "items-center"; "justify-start"; "gap-6";
             "self-stretch"]%string)
         [Element div
            (class ["font-sans"; "text-sm"; "font-medium"; "leading-tight";
                    "text-[--gray-11]"]%string)
            [Value (VString displayParamName)];
          Element div
            (class ["overflow-hidden"; "truncate"; "whitespace-nowrap";
                    "font-mono"; "text-xs"; "font-medium"; "leading-tight";
                    "text-[--gray-12]"]%string)
            [Value (VString text)]]).

(** Lines 106-113: [Array.isArray(result)] holds of the arrays only. *)
Definition imageResult (r : value) : M value :=
  match r with
  | VArray items =>
      lift (Array_find
              (fun item =>
                 let? t := GetV item (js "type") in
                 Normal (strictEqualsString t (js "image")))
              items)
  | _ =>
      if jsstring_eqb (typeof r) (js "object") then
        t <- lift (optGetV r (js "type")) ;;
        if strictEqualsString t (js "image") then ret r else ret VUndefined
      else ret VUndefined
  end.

(** Lines 104-127, the function called in place. *)
Definition imagePreview (onImageClick : option callback) (r : value)
  : M node :=
  imageResult <- imageResult r ;;
  source <- lift (optGetV imageResult (js "source")) ;;
  if ToBoolean source then
    source1 <- lift (GetV imageResult (js "source")) ;;
    media_type <- lift (GetV source1 (js "media_type")) ;;
    part1 <- lift (ToString media_type) ;;
    source2 <- lift (GetV imageResult (js "source")) ;;
    data <- lift (GetV source2 (js "data")) ;;
    part2 <- lift (ToString data) ;;
    let imageSrc := js "data:" ++ part1 ++ js ";base64," ++ part2 in
    ret (Element img
           {| key := None;
              className :=
                ["h-[39px]"; "cursor-pointer"; "self-stretch"; "rounded-lg";
                 "border"; "border-[--gray-3]"; "transition-opacity";
                 "hover:opacity-90"]%string;
              src := Some imageSrc;
              alt := Some "Preview"%string;
              onClick :=
                Some match onImageClick with
                     | Some f => invoke f imageSrc
                     | None => ret tt
                     end |}
           [])
  else ret (Value VNull).

(** Lines 102-129: [a && b] is [a] itself when [a] is falsy. *)
Definition imageSlot (onImageClick : option callback)
  (toolInvocation : ToolInvocation) : M node :=
  if State_eqb (state toolInvocation) state_result then
    if ToBoolean (result toolInvocation) then
      preview <- imagePreview onImageClick (result toolInvocation) ;;
      ret (Element div
             (class ["inline-flex"; "h-[39px]"; "w-[71px]"; "flex-col";
                     "items-start"; "justify-start"; "gap-2.5"]%string)
             [preview])
    else ret (Value (result toolInvocation))
  else ret (Value (VBool false)).

(** Lines 50-131: the element of one invocation, once its rows and the
    child of its image slot are evaluated. *)
Definition block (toolInvocation : ToolInvocation)
  (displayToolName : jsstring) (rows : list node) (slot : node) : node :=
  Element div
    (keyed (toolCallId toolInvocation)
       (["inline-flex"; "w-full"; "flex-col"; "items-start";
         "justify-start"; "gap-2"]%string
        ++ (if State_eqb (state toolInvocation) state_call
            then ["opacity-40"%string] else [])))
    [header displayToolName (state toolInvocation);
     divider;
     Element div
       (class ["inline-flex"; "items-end"; "justify-start"; "gap-2";
               "self-stretch"; "overflow-hidden"]%string)
       [Element div
          (class ["inline-flex"; "shrink"; "grow"; "basis-0"; "flex-col";
                  "items-start"; "justify-start"; "gap-1"; "self-stretch";
                  "overflow-hidden"]%string)
          [Items rows];
        slot]].

(** Lines 39-133, the callback of [toolInvocations.map]. *)
Definition renderInvocation (onImageClick : option callback)
  (toolInvocation : ToolInvocation) : M node :=
  let displayToolName :=
    capitalizeAndReplaceUnderscores (toolName toolInvocation) in
  entries <- lift (Object_entries
                     (or_else (args toolInvocation) (VObject []))) ;;
  if jsstring_eqb (toolName toolInvocation) (js "pause_execution") then
    ret (Value VNull)
  else
    rows <- mapM paramRow entries ;;
    slot <- imageSlot onImageClick toolInvocation ;;
    ret (block toolInvocation displayToolName rows slot).

(** Lines 32-136. *)
Definition ToolInvocations (props : ToolRenderProps) : M node :=
  match toolInvocations props with
  | None => ret (Value VNull)
  | Some invocations =>
      blocks <- mapM (renderInvocation (onImageClick props)) invocations ;;
      ret (Element div (class ["flex"; "w-full"; "flex-col"; "gap-2"]%string)
             [Items blocks])
  end.

(* ================================================================= *)
(** ** Reading the rendered tree *)

Definition tag_eqb (a b : tag) : bool :=
  match a, b with
  | div, div | span, span | img, img | CheckIcon, CheckIcon => true
  | _, _ => false
  end.

(** The node and everything below it, in document order. *)
Fixpoint descendants (n : node) : list node :=
  n :: match n with
       | Element _ _ children => flat_map descendants children
       | Value _ => []
       | Items l => flat_map descendants l
       end.

Definition hasClass (c : string) (n : node) : bool :=
  match n with
  | Element _ a _ => existsb (String.eqb c) (className a)
  | _ => false
  end.

Definition hasTag (t : tag) (n : node) : bool :=
  match n with
  | Element t' _ _ => tag_eqb t t'
  | _ => false
  end.

Definition isElement (n : node) : bool :=
  match n with
  | Element _ _ _ => true
  | _ => false
  end.

(** The reduced-opacity flag of a block, the spinner, the checkmark and the
    images anywhere inside it. *)
Definition reducedOpacity (block : node) : bool :=
  hasClass "opacity-40" block.

Definition carriesSpinner (block : node) : bool :=
  existsb (hasClass "animate-spin") (descendants block).

Definition carriesCheckmark (block : node) : bool :=
  existsb (hasTag CheckIcon) (descendants block).

Definition images (n : node) : list node :=
  filter (hasTag img) (descendants n).

Definition srcOf (n : node) : option jsstring :=
  match n with
  | Element _ a _ => src a
  | _ => None
  end.

Definition keyOf (n : node) : option jsstring :=
  match n with
  | Element _ a _ => key a
  | _ => None
  end.

(** A click on a node runs its [onClick] handler, if it has one. *)
Definition click (n : node) : M unit :=
  match n with
  | Element _ a _ =>
      match onClick a with
      | Some handler => handler
      | None => ret tt
      end
  | _ => ret tt
  end.

(** The parts of a block, by position: the text of the header, the
    parameter rows, the child in the image slot. *)
Definition titleOf (block : node) : option jsstring :=
  match block with
  | Element _ _ (Element _ _ (Element _ _ [Value (VString t)] :: _) :: _) =>
      Some t
  | _ => None
  end.

Definition rowsOf (block : node) : list node :=
  match block with
  | Element _ _ [_; _; Element _ _ [Element _ _ [Items rows]; _]] => rows
  | _ => []
  end.

Definition slotOf (block : node) : option node :=
  match block with
  | Element _ _ [_; _; Element _ _ [_; slot]] => Some slot
  | _ => None
  end.

(** A parameter row as (key, displayed name, displayed value). *)
Definition rowCells (row : node)
  : option (jsstring * jsstring * jsstring) :=
  match row with
  | Element div a
      [Element div _ [Value (VString name)];
       Element div _ [Value (VString text)]] =>
      match key a with
      | Some k => Some (k, name, text)
      | None => None
      end
  | _ => None
  end.

(** A node with no spinner, no checkmark and no image below it. *)
Definition plain (n : node) : Prop :=
  existsb (hasClass "animate-spin") (descendants n) = false
  /\ existsb (hasTag CheckIcon) (descendants n) = false
  /\ images n = [].

(** A leaf with no spinner and no checkmark. *)
Definition bare (n : node) : Prop :=
  descendants n = [n]
  /\ hasClass "animate-spin" n = false
  /\ hasTag CheckIcon n = false.

(** How a row shows an entry. *)
Definition shows (entry : jsstring * value) (row : node) : Prop :=
  exists text,
    ToString (snd entry) = Normal text
    /\ rowCells row
       = Some (fst entry, capitalizeAndReplaceUnderscores (fst entry), text).

Definition nullish (v : value) : bool :=
  match v with
  | VUndefined | VNull => true
  | _ => false
  end.

(** A property of an object, [undefined] when it has none of that name. *)
Definition property (name : jsstring) (props : list (jsstring * value))
  : value :=
  match lookup name props with
  | Some v => v
  | None => VUndefined
  end.

(** An element of a result that passes the test [item.type === "image"]. *)
Definition isImage (v : value) : bool :=
  match v with
  | VObject props => strictEqualsString (property (js "type") props) (js "image")
  | _ => false
  end.

(** The data URI of line 116. *)
Definition dataURI (media_type data : jsstring) : jsstring :=
  js "data:" ++ media_type ++ js ";base64," ++ data.

(** The entries the body iterates over: those of [args || {}]. *)
Definition argEntries (a : value) : list (jsstring * value) :=
  match Object_entries (or_else a (VObject [])) with
  | Normal entries => entries
  | Throw _ => []
  end.

Definition stringable (v : value) : bool :=
  match ToString v with
  | Normal _ => true
  | Throw _ => false
  end.

Definition argsStringable (a : value) : bool :=
  forallb (fun entry => stringable (snd entry)) (argEntries a).

(** The shape the interfaces of lines 4-18 give to [result]: absent, a
    string, an image result or an array of image results, where an image
    result is an object with a string [type] and, if it has a [source], an
    object whose [media_type] and [data] are strings when present. *)
Definition optionalString (o : option value) : bool :=
  match o with
  | None | Some VUndefined | Some (VString _) => true
  | Some _ => false
  end.

Definition sourceTyped (o : option value) : bool :=
  match o with
  | None | Some VUndefined => true
  | Some (VObject fields) =>
      optionalString (lookup (js "media_type") fields)
      && optionalString (lookup (js "data") fields)
  | Some _ => false
  end.

Definition imageResultTyped (v : value) : bool :=
  match v with
  | VObject props =>
      match lookup (js "type") props with
      | Some (VString _) => sourceTyped (lookup (js "source") props)
      | _ => false
      end
  | _ => false
  end.

Definition resultTyped (r : value) : bool :=
  match r with
  | VUndefined | VString _ => true
  | VArray items => forallb imageResultTyped items
  | VObject _ => imageResultTyped r
  | _ => false
  end.

Definition isPause (toolInvocation : ToolInvocation) : bool :=
  jsstring_eqb (toolName toolInvocation) (js "pause_execution").

(** An invocation of the declared shape whose argument values convert to
    strings. *)
Definition wellFormed (toolInvocation : ToolInvocation) : bool :=
  argsStringable (args toolInvocation)
  && resultTyped (result toolInvocation).

(** What a template literal writes for an optional string field. *)
Definition interpolated (field : option value) : jsstring :=
  match field with
  | Some (VString s) => s
  | _ => js "undefined"
  end.


(** Whether a computation completed normally. *)
Definition isNormal {A} (m : M A) : bool :=
  match fst m with
  | Normal _ => true
  | Throw _ => false
  end.

(** The image element of lines 118-123 for a data URI. *)
Definition imageElement (onImageClick : option callback)
  (imageSrc : jsstring) : node :=
  Element img
    {| key := None;
       className :=
         ["h-[39px]"; "cursor-pointer"; "self-stretch"; "rounded-lg";
          "border"; "border-[--gray-3]"; "transition-opacity";
          "hover:opacity-90"]%string;
       src := Some imageSrc;
       alt := Some "Preview"%string;
       onClick :=
         Some match onImageClick with
              | Some f => invoke f imageSrc
              | None => ret tt
              end |}
    [].

(** A node whose click is sound: an image carries its [src] and the handler
    that passes this [src] to the callback; any other element has no
    handler. *)
Definition handlerSound (onImageClick : option callback) (n : node) : Prop :=
  match n with
  | Element t a _ =>
      if tag_eqb t img then
        exists uri,
          src a = Some uri
          /\ onClick a = Some match onImageClick with
                              | Some f => invoke f uri
                              | None => ret tt
                              end
      else onClick a = None
  | _ => True
  end.

(** The same invocation with another result. *)
Definition withResult (toolInvocation : ToolInvocation) (r : value)
  : ToolInvocation :=
  {| toolCallId := toolCallId toolInvocation;
     toolName := toolName toolInvocation;
     args := args toolInvocation;
     state := state toolInvocation;
     result := r |}.

(** A string that is empty or starts with an ASCII code unit. *)
Definition startsASCII (s : jsstring) : bool :=
  match s with
  | [] => true
  | c :: _ => (c <? 128)%N
  end.

(** A value of [args] other than an object with properties, an array with
    elements or a string with characters. *)
Definition withoutEntries (a : value) : bool :=
  match a with
  | VObject (_ :: _) | VArray (_ :: _) | VString (_ :: _) => false
  | _ => true
  end.

End Component.

(* ================================================================= *)
(** ** Sample invocations *)

Module Examples.

#[local] Existing Instance plainHost.

(** A completed call whose result is a text element followed by an image. *)
Definition screenshot : ToolInvocation :=
  {| toolCallId := js "call_1";
     toolName := js "take_screenshot";
     args := VObject [(js "page_url", VString (js "https://example.com"));
                      (js "full_page", VBool true)];
     state := state_result;
     result :=
       VArray
         [VObject [(js "type", VString (js "text"));
                   (js "text", VString (js "done"))];
          VObject [(js "type", VString (js "image"));
                   (js "source",
                     VObject [(js "media_type", VString (js "image/png"));
                              (js "data", VString (js "AAAA"))])]] |}.

(** A call in flight. *)
Definition pending : ToolInvocation :=
  {| toolCallId := js "call_2";
     toolName := js "get_user_data";
     args := VObject [(js "user_id", VNumber 42%Z)];
     state := state_call;
     result := VUndefined |}.

(** A call whose arguments are still streaming in. *)
Definition streaming : ToolInvocation :=
  {| toolCallId := js "call_3";
     toolName := js "get_user_data";
     args := VObject [(js "user_id", VNumber 4%Z)];
     state := state_partial_call;
     result := VUndefined |}.

(** A call handled elsewhere. *)
Definition paused : ToolInvocation :=
  {| toolCallId := js "call_4";
     toolName := js "pause_execution";
     args := VNull;
     state := state_call;
     result := VUndefined |}.


(** A completed call whose image has a source without fields. *)
Definition emptySource : ToolInvocation :=
  {| toolCallId := js "call_6";
     toolName := js "take_screenshot";
     args := VObject [];
     state := state_result;
     result := VObject [(js "type", VString (js "image"));
                        (js "source", VObject [])] |}.

(** A completed call whose result array holds [null], outside the declared
    type of [result]. *)
Definition nullItem : ToolInvocation :=
  {| toolCallId := js "call_7";
     toolName := js "take_screenshot";
     args := VObject [];
     state := state_result;
     result := VArray [VNull] |}.

(** The image of [screenshot] and its source. *)
Definition pngSource : list (jsstring * value) :=
  [(js "media_type", VString (js "image/png"));
   (js "data", VString (js "AAAA"))].

Definition pngImage : list (jsstring * value) :=
  [(js "type", VString (js "image")); (js "source", VObject pngSource)].

(** The image of [emptySource]. *)
Definition emptyImage : list (jsstring * value) :=
  [(js "type", VString (js "image")); (js "source", VObject [])].

(** A callback of the host. *)
Definition viewer : option (@callback plainHost) :=
  Some "openViewer"%string.

(** A completed call whose result holds [null] after its image. *)
Definition nullAfterImage : ToolInvocation :=
  {| toolCallId := js "call_8";
     toolName := js "take_screenshot";
     args := VObject [];
     state := state_result;
     result := VArray [VObject [(js "type", VString (js "text"))];
                       VObject pngImage; VNull; VObject emptyImage] |}.

(** A completed call with a text result. *)
Definition textResult : ToolInvocation :=
  {| toolCallId := js "call_9";
     toolName := js "read_page";
     args := VNumber 0%Z;
     state := state_result;
     result := VString (js "done") |}.

(** A completed call whose image source has fields that are not strings. *)
Definition oddFields : list (jsstring * value) :=
  [(js "media_type", VNumber 7%Z); (js "data", VNull)].

Definition oddImage : list (jsstring * value) :=
  [(js "type", VString (js "image")); (js "source", VObject oddFields)].

Definition oddSource : ToolInvocation :=
  {| toolCallId := js "call_10";
     toolName := js "take_screenshot";
     args := VObject [];
     state := state_result;
     result := VObject oddImage |}.

(** A completed call whose image has [null] for source. *)
Definition nullSourceImage : list (jsstring * value) :=
  [(js "type", VString (js "image")); (js "source", VNull)].

Definition nullSource : ToolInvocation :=
  {| toolCallId := js "call_11";
     toolName := js "take_screenshot";
     args := VObject [];
     state := state_result;
     result := VArray [VObject nullSourceImage] |}.

(** A list with a skipped invocation in the middle. *)
Definition conversation : list ToolInvocation :=
  [screenshot; paused; pending].



(** What the samples render to ([null] stands in for a rendering that
    throws). *)
Definition rendered (toolInvocation : ToolInvocation) : node :=
  match fst (renderInvocation viewer toolInvocation) with
  | Normal b => b
  | Throw _ => Value VNull
  end.

Definition renderedList (invocations : list ToolInvocation) : node :=
  match fst (ToolInvocations
               {| toolInvocations := Some invocations;
                  onImageClick := viewer |}) with
  | Normal tree => tree
  | Throw _ => Value VNull
  end.

End Examples.

Unset Implicit Arguments.

Section Properties.
Context `{Host}.

(* ================================================================= *)
(** ** Strings: the display name *)



Lemma replaceAll_unit (a b : codeunit) (s : jsstring) :
  Str.replaceAll [a] [b] s = map (fun c => if (c =? a)%N then b else c) s.
Proof.
  unfold Str.replaceAll.
  induction s as [|c r IH]; [reflexivity|].
  cbn [Str.replaceAll_from Str.isPrefix List.length Nat.sub map].
  rewrite andb_true_r, (N.eqb_sym a c), IH.
  destruct (c =? a)%N; reflexivity.
Qed.

Lemma toUpperCase1_lineTerminator (c : codeunit) :
  Str.isLineTerminator c = true -> Str.toUpperCase1 c = [c].
Proof.
  intros L. unfold Str.toUpperCase1. rewrite L.
  destruct (c <? 128)%N eqn:small; [|reflexivity].
  unfold Str.isLineTerminator in L.
  rewrite !orb_true_iff, !N.eqb_eq in L.
  apply N.ltb_lt in small.
  destruct L as [[[-> | ->] | ->] | ->]; try reflexivity; lia.
Qed.

Lemma replace_caret_dot_upperFirst (s : jsstring) :
  Str.replace_caret_dot (fun m => Str.toUpperCase1 m) s
  = DisplayNameSpec.upperFirst s.
Proof.
  destruct s as [|c r]; [reflexivity|].
  simpl. destruct (Str.isLineTerminator c) eqn:L; [|reflexivity].
  rewrite (toUpperCase1_lineTerminator _ L). reflexivity.
Qed.

Lemma capitalize_displayName (s : jsstring) :
  capitalizeAndReplaceUnderscores s = DisplayNameSpec.displayName s.
Proof.
  unfold capitalizeAndReplaceUnderscores, DisplayNameSpec.displayName.
  rewrite replace_caret_dot_upperFirst.
  change (js "_") with [95%N]; change (js " ") with [32%N].
  rewrite replaceAll_unit. reflexivity.
Qed.

(* ================================================================= *)
(** ** The monad *)

Lemma bind_ret A B (a : A) (k : A -> M B) : bind (ret a) k = k a.
Proof. unfold bind, ret. destruct (k a). reflexivity. Qed.

Lemma bind_lift A B (a : A) (k : A -> M B) : bind (lift (Normal a)) k = k a.
Proof. apply bind_ret. Qed.

Lemma bind_ret_inv A B (m : M A) (k : A -> M B) (b : B) :
  bind m k = ret b -> exists a, m = ret a /\ k a = ret b.
Proof.
  unfold bind, ret. destruct m as [[a|e] t]; [|discriminate].
  destruct (k a) as [r t'] eqn:K. intros E. inversion E as [[Er Et]].
  apply app_eq_nil in Et. destruct Et as [-> ->].
  exists a. rewrite K. auto.
Qed.

Lemma silent_ret A (a : A) : silent (ret a).
Proof. reflexivity. Qed.

Lemma silent_lift A (c : Completion A) : silent (lift c).
Proof. reflexivity. Qed.

Lemma silent_bind A B (m : M A) (k : A -> M B) :
  silent m -> (forall a, silent (k a)) -> silent (bind m k).
Proof.
  unfold silent, bind. destruct m as [[a|e] t]; simpl; intros -> Hk; auto.
  specialize (Hk a). destruct (k a) as [r t']. simpl in *.
  subst; reflexivity.
Qed.

Lemma silent_mapM A B (f : A -> M B) (l : list A) :
  (forall x, silent (f x)) -> silent (mapM f l).
Proof.
  intros Hf. induction l as [|x r IH]; simpl; [apply silent_ret|].
  apply silent_bind; [apply Hf|]. intros y.
  apply silent_bind; [exact IH|]. intros ys. apply silent_ret.
Qed.

(* ================================================================= *)
(** ** The argument rows *)

Lemma Object_entries_or_else (a : value) :
  Object_entries (or_else a (VObject [])) = Normal (argEntries a).
Proof.
  unfold argEntries.
  destruct (Object_entries (or_else a (VObject []))) eqn:E; [reflexivity|].
  exfalso. unfold or_else in E.
  destruct a as [| |b|n|s|items|props]; simpl in E;
    try discriminate;
    try (destruct b; discriminate);
    try (destruct (Number_toBoolean n); discriminate).
  destruct s; discriminate.
Qed.

Lemma paramRow_Normal (k : jsstring) (v : value) (text : jsstring) :
  ToString v = Normal text ->
  exists row,
    paramRow (k, v) = ret row
    /\ rowCells row = Some (k, capitalizeAndReplaceUnderscores k, text)
    /\ plain row.
Proof.
  intros E. unfold paramRow. rewrite E, bind_lift.
  eexists; split; [reflexivity|]. repeat split.
Qed.

Lemma paramRow_Throw (k : jsstring) (v : value) (e : error) :
  ToString v = Throw e -> paramRow (k, v) = lift (Throw e).
Proof. intros E. unfold paramRow. rewrite E. reflexivity. Qed.

Lemma rows_of_stringable (entries : list (jsstring * value)) :
  forallb (fun entry => stringable (snd entry)) entries = true ->
  exists rows,
    mapM paramRow entries = ret rows
    /\ Forall2 shows entries rows
    /\ Forall plain rows.
Proof.
  induction entries as [|[k v] r IH]; intros S; cbn [mapM].
  - exists []. repeat split; constructor.
  - cbn [forallb snd] in S. apply andb_true_iff in S. destruct S as [Sv Sr].
    unfold stringable in Sv. destruct (ToString v) as [text|] eqn:E;
      [|discriminate].
    destruct (paramRow_Normal k v text E) as (row & Hrow & Hcells & Hplain).
    destruct (IH Sr) as (rows & Hrows & Hshow & Hall).
    exists (row :: rows). rewrite Hrow, bind_ret, Hrows, bind_ret.
    repeat split; constructor; auto.
    exists text. auto.
Qed.

(** The rows are all there or the conversion of a value has thrown. *)
Lemma rows_or_throw (entries : list (jsstring * value)) :
  (exists rows, mapM paramRow entries = ret rows
                /\ Forall2 shows entries rows /\ Forall plain rows)
  \/ (exists k v e, In (k, v) entries /\ ToString v = Throw e
                    /\ mapM paramRow entries = lift (Throw e)).
Proof.
  induction entries as [|[k v] r IH]; cbn [mapM].
  - left. exists []. repeat split; constructor.
  - destruct (ToString v) as [text|e] eqn:E.
    + destruct (paramRow_Normal k v text E) as (row & Hrow & Hcells & Hp).
      rewrite Hrow, bind_ret.
      destruct IH as [(rows & Hrows & Hshow & Hplain)
                     | (k' & v' & e & Hin & Hv & Hm)].
      * left. exists (row :: rows). rewrite Hrows, bind_ret.
        repeat split; constructor; auto. exists text; auto.
      * right. exists k', v', e. rewrite Hm.
        repeat split; [right; exact Hin | exact Hv].
    + right. exists k, v, e. rewrite (paramRow_Throw k v e E).
      repeat split; [left; reflexivity | exact E].
Qed.

(* ================================================================= *)
(** ** The image slot *)

Lemma type_test (item : value) :
  nullish item = false ->
  (let? t := GetV item (js "type") in
   Normal (strictEqualsString t (js "image")))
  = Normal (isImage item).
Proof. destruct item; simpl; intros N; try discriminate; reflexivity. Qed.

Lemma Array_find_isImage (items : list value) :
  forallb (fun v => negb (nullish v)) items = true ->
  Array_find
    (fun item =>
       let? t := GetV item (js "type") in
       Normal (strictEqualsString t (js "image")))
    items
  = Normal (match find isImage items with
            | Some x => x
            | None => VUndefined
            end).
Proof.
  induction items as [|x r IH]; intros P; [reflexivity|].
  cbn [forallb] in P. apply andb_true_iff in P. destruct P as [Px Pr].
  apply negb_true_iff in Px.
  cbn [Array_find find]. rewrite (type_test _ Px). cbn [bindC].
  destruct (isImage x); [reflexivity | exact (IH Pr)].
Qed.

Lemma imageResult_array (items : list value) :
  forallb (fun v => negb (nullish v)) items = true ->
  imageResult (VArray items)
  = ret (match find isImage items with
         | Some x => x
         | None => VUndefined
         end).
Proof.
  intros P. unfold imageResult. rewrite (Array_find_isImage _ P).
  reflexivity.
Qed.

Lemma imageResult_object (props : list (jsstring * value)) :
  imageResult (VObject props)
  = ret (if isImage (VObject props) then VObject props else VUndefined).
Proof.
  unfold imageResult, isImage, property. simpl.
  destruct (lookup (js "type") props) as [t|]; simpl;
    [destruct (strictEqualsString t (js "image"))|]; reflexivity.
Qed.


Lemma find_isImage_object (items : list value) (x : value) :
  find isImage items = Some x -> exists props, x = VObject props.
Proof.
  intros F. apply find_some in F. destruct F as [_ I].
  destruct x; try discriminate. eauto.
Qed.

Lemma typed_not_nullish (items : list value) :
  forallb imageResultTyped items = true ->
  forallb (fun v => negb (nullish v)) items = true.
Proof.
  rewrite !forallb_forall. intros T v Hin. specialize (T v Hin).
  destruct v; try discriminate; reflexivity.
Qed.

(** What the function called in place returns once an image result is
    selected. *)
Lemma imagePreview_image (cb : option callback) (r : value)
  (props fields : list (jsstring * value)) (part1 part2 : jsstring) :
  imageResult r = ret (VObject props) ->
  lookup (js "source") props = Some (VObject fields) ->
  ToString (property (js "media_type") fields) = Normal part1 ->
  ToString (property (js "data") fields) = Normal part2 ->
  exists image,
    imagePreview cb r = ret image
    /\ descendants image = [image]
    /\ hasTag img image = true
    /\ hasClass "animate-spin" image = false
    /\ srcOf image = Some (dataURI part1 part2)
    /\ click image = match cb with
                     | Some f => invoke f (dataURI part1 part2)
                     | None => ret tt
                     end.
Proof.
  intros Hir Hsrc H1 H2. unfold imagePreview.
  rewrite Hir, bind_ret. cbn [optGetV GetV]. rewrite Hsrc, !bind_lift.
  cbn [ToBoolean GetV]. fold (property (js "media_type") fields).
  rewrite !bind_lift, H1, !bind_lift.
  cbn [GetV]. fold (property (js "data") fields).
  rewrite !bind_lift, H2, !bind_lift.
  eexists; split; [reflexivity|]. repeat split.
Qed.

Lemma imagePreview_no_source (cb : option callback) (r ir : value) :
  imageResult r = ret ir ->
  match ir with
  | VObject props => ToBoolean (property (js "source") props) = false
  | VUndefined => True
  | _ => False
  end ->
  imagePreview cb r = ret (Value VNull).
Proof.
  intros Hir S. unfold imagePreview. rewrite Hir, bind_ret.
  destruct ir; try contradiction; [reflexivity|].
  cbn [optGetV GetV]. fold (property (js "source") props).
  rewrite bind_lift, S. reflexivity.
Qed.

(* ================================================================= *)
(** ** One invocation *)

Lemma renderInvocation_pause (cb : option callback) (inv : ToolInvocation) :
  isPause inv = true -> renderInvocation cb inv = ret (Value VNull).
Proof.
  intros P. unfold renderInvocation.
  rewrite Object_entries_or_else, bind_lift.
  unfold isPause in P. rewrite P. reflexivity.
Qed.

Lemma renderInvocation_block (cb : option callback) (inv : ToolInvocation)
  (rows : list node) (slot : node) :
  isPause inv = false ->
  mapM paramRow (argEntries (args inv)) = ret rows ->
  imageSlot cb inv = ret slot ->
  renderInvocation cb inv
  = ret (block inv (capitalizeAndReplaceUnderscores (toolName inv))
           rows slot).
Proof.
  intros P R S. unfold renderInvocation.
  rewrite Object_entries_or_else, bind_lift.
  unfold isPause in P. rewrite P, R, bind_ret, S, bind_ret. reflexivity.
Qed.

Lemma block_opacity (inv : ToolInvocation) (title : jsstring)
  (rows : list node) (slot : node) :
  reducedOpacity (block inv title rows slot)
  = State_eqb (state inv) state_call.
Proof. unfold reducedOpacity, block. destruct (state inv); reflexivity. Qed.

Lemma plain_rows (p : node -> bool) (rows : list node) :
  Forall (fun row => existsb p (descendants row) = false) rows ->
  existsb p (flat_map descendants rows) = false.
Proof.
  induction 1 as [|row r Hrow _ IH]; [reflexivity|].
  cbn [flat_map]. rewrite existsb_app, Hrow, IH. reflexivity.
Qed.

Lemma block_spinner (inv : ToolInvocation) (title : jsstring)
  (rows : list node) (slot : node) :
  Forall plain rows ->
  carriesSpinner (block inv title rows slot)
  = State_eqb (state inv) state_call
    || existsb (hasClass "animate-spin") (descendants slot).
Proof.
  intros R. unfold carriesSpinner, block.
  assert (existsb (hasClass "animate-spin") (flat_map descendants rows)
          = false) as E.
  { apply plain_rows. eapply Forall_impl; [|exact R]. intros row P; apply P. }
  destruct (state inv); simpl; [reflexivity| |];
    rewrite !app_nil_r, existsb_app, E; reflexivity.
Qed.

Lemma block_checkmark (inv : ToolInvocation) (title : jsstring)
  (rows : list node) (slot : node) :
  Forall plain rows ->
  carriesCheckmark (block inv title rows slot)
  = State_eqb (state inv) state_result
    || existsb (hasTag CheckIcon) (descendants slot).
Proof.
  intros R. unfold carriesCheckmark, block.
  assert (existsb (hasTag CheckIcon) (flat_map descendants rows) = false)
    as E.
  { apply plain_rows. eapply Forall_impl; [|exact R]. intros row P; apply P. }
  destruct (state inv); simpl; [|reflexivity|];
    rewrite !app_nil_r, existsb_app, E; reflexivity.
Qed.

Lemma plain_rows_images (rows : list node) :
  Forall plain rows -> filter (hasTag img) (flat_map descendants rows) = [].
Proof.
  induction 1 as [|row r Hrow _ IH]; [reflexivity|].
  cbn [flat_map]. rewrite filter_app, IH.
  destruct Hrow as (_ & _ & I). unfold images in I. rewrite I. reflexivity.
Qed.

Lemma block_images (inv : ToolInvocation) (title : jsstring)
  (rows : list node) (slot : node) :
  Forall plain rows ->
  images (block inv title rows slot) = images slot.
Proof.
  intros R. unfold images, block.
  destruct (state inv); simpl;
    rewrite !app_nil_r, filter_app, (plain_rows_images _ R); reflexivity.
Qed.

(** The child of the image slot, by the state and the result. *)
Lemma imageSlot_not_result (cb : option callback) (inv : ToolInvocation) :
  state inv <> state_result -> imageSlot cb inv = ret (Value (VBool false)).
Proof.
  intros S. unfold imageSlot.
  destruct (state inv); try reflexivity. contradiction.
Qed.


Lemma imageSlot_truthy (cb : option callback) (inv : ToolInvocation)
  (preview : node) :
  state inv = state_result -> ToBoolean (result inv) = true ->
  imagePreview cb (result inv) = ret preview ->
  exists a,
    imageSlot cb inv = ret (Element div a [preview])
    /\ hasClass "animate-spin" (Element div a [preview]) = false.
Proof.
  intros S T P. unfold imageSlot. rewrite S, T, P, bind_ret. simpl.
  eexists; split; reflexivity.
Qed.

Lemma optionalString_text (name : jsstring)
  (fields : list (jsstring * value)) :
  optionalString (lookup name fields) = true ->
  exists text, ToString (property name fields) = Normal text.
Proof.
  unfold property. destruct (lookup name fields) as [[]|]; simpl;
    intros O; try discriminate; eauto.
Qed.

Lemma imagePreview_typed_object (cb : option callback) (r : value)
  (props : list (jsstring * value)) :
  imageResult r = ret (VObject props) ->
  imageResultTyped (VObject props) = true ->
  exists preview, imagePreview cb r = ret preview /\ bare preview.
Proof.
  intros Hir T. cbn [imageResultTyped] in T.
  destruct (lookup (js "type") props) as [[]|]; try discriminate.
  destruct (lookup (js "source") props) as [source|] eqn:S.
  - destruct source as [| | | | | |fields]; try discriminate.
    + exists (Value VNull). split; [|repeat split].
      apply (imagePreview_no_source cb _ _ Hir). unfold property.
      rewrite S. reflexivity.
    + cbn [sourceTyped] in T. apply andb_true_iff in T.
      destruct T as [T1 T2].
      destruct (optionalString_text _ _ T1) as [part1 H1].
      destruct (optionalString_text _ _ T2) as [part2 H2].
      destruct (imagePreview_image cb _ _ _ _ _ Hir S H1 H2)
        as (image & Hp & Hd & Ht & Hc & _).
      exists image. split; [exact Hp|]. repeat split; auto.
      destruct image as [[] ? ?| |]; try discriminate; reflexivity.
  - exists (Value VNull). split; [|repeat split].
    apply (imagePreview_no_source cb _ _ Hir). unfold property.
    rewrite S. reflexivity.
Qed.

Lemma imagePreview_typed (cb : option callback) (r : value) :
  resultTyped r = true ->
  exists preview, imagePreview cb r = ret preview /\ bare preview.
Proof.
  intros T.
  assert (forall ir, imageResult r = ret ir -> ir = VUndefined ->
          exists preview, imagePreview cb r = ret preview /\ bare preview)
    as none.
  { intros ir Hir ->. exists (Value VNull). split; [|repeat split].
    apply (imagePreview_no_source cb _ _ Hir). exact I. }
  destruct r as [| |b|n|s|items|props]; try discriminate.
  - apply (none VUndefined); reflexivity.
  - apply (none VUndefined); reflexivity.
  - cbn [resultTyped] in T.
    pose proof (imageResult_array _ (typed_not_nullish _ T)) as Hir.
    destruct (find isImage items) as [x|] eqn:F.
    + destruct (find_isImage_object _ _ F) as [props ->].
      apply (imagePreview_typed_object cb _ _ Hir).
      apply find_some in F. destruct F as [Hin _].
      rewrite forallb_forall in T. exact (T _ Hin).
    + apply (none VUndefined Hir); reflexivity.
  - pose proof (imageResult_object props) as Hir.
    destruct (isImage (VObject props)).
    + apply (imagePreview_typed_object cb _ _ Hir). exact T.
    + apply (none VUndefined Hir); reflexivity.
Qed.

Lemma imageSlot_typed (cb : option callback) (inv : ToolInvocation) :
  resultTyped (result inv) = true ->
  exists slot,
    imageSlot cb inv = ret slot
    /\ existsb (hasClass "animate-spin") (descendants slot) = false
    /\ existsb (hasTag CheckIcon) (descendants slot) = false.
Proof.
  intros T. unfold imageSlot.
  destruct (State_eqb (state inv) state_result);
    [|eexists; split; [reflexivity | split; reflexivity]].
  destruct (ToBoolean (result inv));
    [|eexists; split; [reflexivity | split; reflexivity]].
  destruct (imagePreview_typed cb _ T) as (preview & Hp & Hd & Hs & Hc).
  rewrite Hp, bind_ret. eexists; split; [reflexivity|].
  cbn [descendants flat_map]. rewrite Hd. simpl. rewrite Hs, Hc.
  split; reflexivity.
Qed.

(** A well-formed invocation that is not skipped renders its block. *)
Lemma renderInvocation_wellFormed (cb : option callback)
  (inv : ToolInvocation) :
  isPause inv = false -> wellFormed inv = true ->
  exists rows slot,
    renderInvocation cb inv
    = ret (block inv (capitalizeAndReplaceUnderscores (toolName inv))
             rows slot)
    /\ imageSlot cb inv = ret slot
    /\ Forall2 shows (argEntries (args inv)) rows
    /\ Forall plain rows
    /\ existsb (hasClass "animate-spin") (descendants slot) = false
    /\ existsb (hasTag CheckIcon) (descendants slot) = false.
Proof.
  intros P W. unfold wellFormed in W. apply andb_true_iff in W.
  destruct W as [Wa Wr].
  destruct (rows_of_stringable _ Wa) as (rows & Hrows & Hshow & Hplain).
  destruct (imageSlot_typed cb inv Wr) as (slot & Hslot & Hs & Hc).
  exists rows, slot. rewrite (renderInvocation_block cb inv rows slot P Hrows Hslot).
  repeat split; auto.
Qed.

Lemma imageResult_object_truthy (r : value)
  (props : list (jsstring * value)) :
  imageResult r = ret (VObject props) -> ToBoolean r = true.
Proof. destruct r; simpl; intros E; try discriminate; reflexivity. Qed.

Lemma images_slot (a : attributes) (preview : node) :
  images (Element div a [preview]) = images preview.
Proof. unfold images. simpl. rewrite app_nil_r. reflexivity. Qed.

(** The block of an invocation whose result gives an image with a source. *)
Lemma render_image (cb : option callback) (inv : ToolInvocation)
  (props fields : list (jsstring * value)) (part1 part2 : jsstring) :
  isPause inv = false ->
  argsStringable (args inv) = true ->
  state inv = state_result ->
  imageResult (result inv) = ret (VObject props) ->
  lookup (js "source") props = Some (VObject fields) ->
  ToString (property (js "media_type") fields) = Normal part1 ->
  ToString (property (js "data") fields) = Normal part2 ->
  exists b image,
    renderInvocation cb inv = ret b
    /\ images b = [image]
    /\ srcOf image = Some (dataURI part1 part2)
    /\ click image = match cb with
                     | Some f => invoke f (dataURI part1 part2)
                     | None => ret tt
                     end.
Proof.
  intros P A S Hir Hsrc H1 H2.
  destruct (rows_of_stringable _ A) as (rows & Hrows & _ & Hplain).
  destruct (imagePreview_image cb _ _ _ _ _ Hir Hsrc H1 H2)
    as (image & Hp & Hd & Ht & _ & Hs & Hc).
  destruct (imageSlot_truthy cb inv image S
              (imageResult_object_truthy _ _ Hir) Hp) as (a & Hslot & _).
  exists (block inv (capitalizeAndReplaceUnderscores (toolName inv)) rows
            (Element div a [image])), image.
  split; [apply renderInvocation_block; assumption|].
  rewrite (block_images _ _ _ _ Hplain), images_slot.
  unfold images. rewrite Hd. cbn [filter]. rewrite Ht. auto.
Qed.

(** The block of a completed invocation whose image slot stays empty. *)
Lemma render_no_image (cb : option callback) (inv : ToolInvocation)
  (slot : node) :
  isPause inv = false ->
  argsStringable (args inv) = true ->
  imageSlot cb inv = ret slot ->
  images slot = [] ->
  existsb (hasTag CheckIcon) (descendants slot) = false ->
  exists b,
    renderInvocation cb inv = ret b
    /\ images b = []
    /\ carriesCheckmark b = State_eqb (state inv) state_result
    /\ Forall2 shows (argEntries (args inv)) (rowsOf b).
Proof.
  intros P A Hslot Hi Hc.
  destruct (rows_of_stringable _ A) as (rows & Hrows & Hshow & Hplain).
  exists (block inv (capitalizeAndReplaceUnderscores (toolName inv)) rows
            slot).
  split; [apply renderInvocation_block; assumption|].
  rewrite (block_images _ _ _ _ Hplain), (block_checkmark _ _ _ _ Hplain).
  rewrite Hc, orb_false_r. repeat split; auto.
Qed.


Lemma renderInvocation_inv (cb : option callback) (inv : ToolInvocation)
  (b : node) :
  isPause inv = false ->
  renderInvocation cb inv = ret b ->
  exists rows slot,
    b = block inv (capitalizeAndReplaceUnderscores (toolName inv)) rows slot
    /\ imageSlot cb inv = ret slot
    /\ Forall2 shows (argEntries (args inv)) rows
    /\ Forall plain rows.
Proof.
  intros P R. unfold renderInvocation in R.
  rewrite Object_entries_or_else, bind_lift in R.
  unfold isPause in P. rewrite P in R.
  apply bind_ret_inv in R. destruct R as (rows & Hrows & R).
  apply bind_ret_inv in R. destruct R as (slot & Hslot & R).
  inversion R as [Hb]. exists rows, slot.
  destruct (rows_or_throw (argEntries (args inv)))
    as [(rows' & Hrows' & Hshow & Hplain) | (k & v & e & _ & _ & Hm)].
  - rewrite Hrows in Hrows'. inversion Hrows'. subst rows'. auto.
  - rewrite Hrows in Hm. discriminate.
Qed.

(* ================================================================= *)
(** ** The rendering contract *)

(** C1. For an invocation in state [result] whose selected image result has
    a source with media type [m] and data [d], the block shows one image;
    its [src] is exactly ["data:" + m + ";base64," + d], and a click on it
    calls [onImageClick] once, with that same string (and calls nothing when
    no callback was given). *)
Theorem image_src_and_click (cb : option callback) (inv : ToolInvocation)
  (props fields : list (jsstring * value)) (m d : jsstring) :
  isPause inv = false ->
  argsStringable (args inv) = true ->
  state inv = state_result ->
  imageResult (result inv) = ret (VObject props) ->
  lookup (js "source") props = Some (VObject fields) ->
  lookup (js "media_type") fields = Some (VString m) ->
  lookup (js "data") fields = Some (VString d) ->
  exists b image,
    renderInvocation cb inv = ret b
    /\ images b = [image]
    /\ srcOf image = Some (js "data:" ++ m ++ js ";base64," ++ d)
    /\ click image
       = match cb with
         | Some f =>
             (Normal tt, [Invoked f (js "data:" ++ m ++ js ";base64," ++ d)])
         | None => (Normal tt, [])
         end.
Proof.
  intros P A S Hir Hsrc Hm Hd.
  apply (render_image cb inv props fields m d P A S Hir Hsrc).
  - unfold property. rewrite Hm. reflexivity.
  - unfold property. rewrite Hd. reflexivity.
Qed.


(** C3. [capitalizeAndReplaceUnderscores] is the display-name rule of the
    specification on every string: each underscore becomes a space and then
    the first character alone is put in upper case.  It maps
    ["get_user_data"] to ["Get user data"], ["x"] to ["X"] and the empty
    string to itself.  The header of a block shows it applied to [toolName]
    and every row shows it applied to its parameter name. *)
Theorem display_name_formatting :
  (forall s,
      capitalizeAndReplaceUnderscores s = DisplayNameSpec.displayName s)
  /\ capitalizeAndReplaceUnderscores (js "get_user_data")
     = js "Get user data"
  /\ capitalizeAndReplaceUnderscores (js "x") = js "X"
  /\ capitalizeAndReplaceUnderscores (js "") = js ""
  /\ (forall cb inv,
        isPause inv = false -> wellFormed inv = true ->
        exists b,
          renderInvocation cb inv = ret b
          /\ titleOf b
             = Some (capitalizeAndReplaceUnderscores (toolName inv))
          /\ Forall2
               (fun entry row =>
                  exists text,
                    rowCells row
                    = Some (fst entry,
                            capitalizeAndReplaceUnderscores (fst entry),
                            text))
               (argEntries (args inv)) (rowsOf b)).
Proof.
  split; [exact capitalize_displayName|].
  repeat (split; [reflexivity|]).
  intros cb inv P W.
  destruct (renderInvocation_wellFormed cb inv P W)
    as (rows & slot & Hb & _ & Hshow & _).
  eexists; split; [exact Hb|]. split; [reflexivity|].
  cbn [rowsOf block]. eapply Forall2_impl; [|exact Hshow].
  intros entry row (text & _ & Hcells). exists text. exact Hcells.
Qed.

Lemma mapM_renderInvocation (cb : option callback)
  (invs : list ToolInvocation) :
  Forall (fun inv => isPause inv = false -> wellFormed inv = true) invs ->
  exists children,
    mapM (renderInvocation cb) invs = ret children
    /\ Forall2
         (fun inv b =>
            renderInvocation cb inv = ret b
            /\ keyOf b = Some (toolCallId inv))
         (filter (fun inv => negb (isPause inv)) invs)
         (filter isElement children).
Proof.
  induction 1 as [|inv r Hinv _ IH]; cbn [mapM].
  - exists []. split; [reflexivity | constructor].
  - destruct IH as (children & Hm & Hf).
    destruct (isPause inv) eqn:P.
    + exists (Value VNull :: children).
      rewrite (renderInvocation_pause cb inv P), bind_ret, Hm, bind_ret.
      split; [reflexivity|]. cbn [filter isElement]. rewrite P. exact Hf.
    + destruct (renderInvocation_wellFormed cb inv P (Hinv eq_refl))
        as (rows & slot & Hb & _).
      eexists (_ :: children). rewrite Hb, bind_ret, Hm, bind_ret.
      split; [reflexivity|]. cbn [filter isElement block]. rewrite P.
      cbn [negb]. constructor; [|exact Hf]. split; [exact Hb | reflexivity].
Qed.


(** The block of an invocation that is not skipped, with its three status
    marks, when its arguments convert and, for a completed call, its result
    has the declared shape. *)
Lemma render_status (cb : option callback) (inv : ToolInvocation) :
  isPause inv = false ->
  argsStringable (args inv) = true ->
  (state inv = state_result -> resultTyped (result inv) = true) ->
  exists b,
    renderInvocation cb inv = ret b
    /\ reducedOpacity b = State_eqb (state inv) state_call
    /\ carriesSpinner b = State_eqb (state inv) state_call
    /\ carriesCheckmark b = State_eqb (state inv) state_result
    /\ Forall2 shows (argEntries (args inv)) (rowsOf b).
Proof.
  intros P A T.
  destruct (rows_of_stringable _ A) as (rows & Hrows & Hshow & Hplain).
  assert (exists slot,
             imageSlot cb inv = ret slot
             /\ existsb (hasClass "animate-spin") (descendants slot) = false
             /\ existsb (hasTag CheckIcon) (descendants slot) = false)
    as (slot & Hslot & Hs & Hc).
  { destruct (state inv) eqn:S.
    - exists (Value (VBool false)). split; [|split; reflexivity].
      apply imageSlot_not_result. rewrite S. discriminate.
    - apply imageSlot_typed, T. reflexivity.
    - exists (Value (VBool false)). split; [|split; reflexivity].
      apply imageSlot_not_result. rewrite S. discriminate. }
  exists (block inv (capitalizeAndReplaceUnderscores (toolName inv)) rows
            slot).
  split; [apply renderInvocation_block; assumption|].
  rewrite block_opacity, (block_spinner _ _ _ _ Hplain),
    (block_checkmark _ _ _ _ Hplain), Hs, Hc, !orb_false_r.
  repeat split. exact Hshow.
Qed.

(** C5. The block of an invocation in state [call] carries the
    reduced-opacity class and the spinner, and no checkmark; the block of an
    invocation in state [result] carries the checkmark and not the
    reduced-opacity class. *)
Theorem call_and_result_indicators (cb : option callback)
  (inv : ToolInvocation) :
  isPause inv = false ->
  argsStringable (args inv) = true ->
  (state inv = state_result -> resultTyped (result inv) = true) ->
  exists b,
    renderInvocation cb inv = ret b
    /\ (state inv = state_call ->
        reducedOpacity b = true
        /\ carriesSpinner b = true
        /\ carriesCheckmark b = false)
    /\ (state inv = state_result ->
        carriesCheckmark b = true
        /\ reducedOpacity b = false
        /\ carriesSpinner b = false).
Proof.
  intros P A T.
  destruct (render_status cb inv P A T) as (b & Hb & Ho & Hs & Hc & _).
  exists b. split; [exact Hb|].
  rewrite Ho, Hs, Hc.
  split; intros ->; repeat split.
Qed.

(** C6. The block of an invocation in state [partial-call] carries neither
    the spinner nor the checkmark, and not the reduced-opacity class. *)
Theorem partial_call_no_indicator (cb : option callback)
  (inv : ToolInvocation) :
  isPause inv = false ->
  argsStringable (args inv) = true ->
  state inv = state_partial_call ->
  exists b,
    renderInvocation cb inv = ret b
    /\ carriesSpinner b = false
    /\ carriesCheckmark b = false
    /\ reducedOpacity b = false.
Proof.
  intros P A S.
  destruct (render_status cb inv P A) as (b & Hb & Ho & Hs & Hc & _).
  { rewrite S. discriminate. }
  exists b. rewrite Ho, Hs, Hc, S. repeat split. exact Hb.
Qed.





(* ================================================================= *)
(** ** Rendering calls nothing *)

Ltac silence :=
  repeat first
    [ apply silent_ret
    | apply silent_lift
    | apply silent_bind; [|intros ?]
    | match goal with
      | |- silent (if ?c then _ else _) => destruct c
      end ].

Lemma silent_paramRow (entry : jsstring * value) : silent (paramRow entry).
Proof. destruct entry as [k v]. unfold paramRow. silence. Qed.

Lemma silent_imageResult (r : value) : silent (imageResult r).
Proof. unfold imageResult. destruct r; silence. Qed.

Lemma silent_imagePreview (cb : option callback) (r : value) :
  silent (imagePreview cb r).
Proof.
  unfold imagePreview.
  apply silent_bind; [apply silent_imageResult | intros ir]. silence.
Qed.

Lemma silent_imageSlot (cb : option callback) (inv : ToolInvocation) :
  silent (imageSlot cb inv).
Proof.
  unfold imageSlot.
  destruct (State_eqb (state inv) state_result); [|apply silent_ret].
  destruct (ToBoolean (result inv)); [|apply silent_ret].
  apply silent_bind; [apply silent_imagePreview | intros p; apply silent_ret].
Qed.

Lemma silent_renderInvocation (cb : option callback)
  (inv : ToolInvocation) :
  silent (renderInvocation cb inv).
Proof.
  unfold renderInvocation.
  apply silent_bind; [apply silent_lift | intros entries].
  destruct (jsstring_eqb _ _); [apply silent_ret|].
  apply silent_bind; [apply silent_mapM, silent_paramRow | intros rows].
  apply silent_bind; [apply silent_imageSlot | intros slot; apply silent_ret].
Qed.

Lemma silent_ToolInvocations (props : ToolRenderProps) :
  silent (ToolInvocations props).
Proof.
  unfold ToolInvocations. destruct (toolInvocations props);
    [|apply silent_ret].
  apply silent_bind;
    [apply silent_mapM; intros inv; apply silent_renderInvocation
    | intros blocks; apply silent_ret].
Qed.

(** X16. Rendering calls nothing: whatever the props, and whether the
    rendering completes or throws, the log of the calls made to
    [onImageClick] while rendering is empty; only a click can call it. *)
Theorem render_calls_nothing (props : ToolRenderProps) :
  snd (ToolInvocations props) = []
  /\ forall inv, In inv (match toolInvocations props with
                         | Some invocations => invocations
                         | None => []
                         end) ->
                 snd (renderInvocation (onImageClick props) inv) = [].
Proof.
  split; [exact (silent_ToolInvocations props)|].
  intros inv _. exact (silent_renderInvocation (onImageClick props) inv).
Qed.

(** C9. Without a list of invocations the component returns [null]: no
    element at all, where an empty list gives the empty container; nothing
    is thrown and the callback is not called. *)
Theorem absent_list_renders_null (cb : option callback) :
  ToolInvocations {| toolInvocations := None; onImageClick := cb |}
  = (Normal (Value VNull), [])
  /\ ToolInvocations {| toolInvocations := Some []; onImageClick := cb |}
     = (Normal
          (Element div (class ["flex"; "w-full"; "flex-col"; "gap-2"]%string)
             [Items []]),
        [])
  /\ descendants (Value VNull) = [Value VNull]
  /\ isElement (Value VNull) = false.
Proof. repeat split. Qed.

(** C10. Once an image result with a source object is selected, the image
    is rendered whether or not the source has its fields: a missing
    [media_type] or [data] is written as the text ["undefined"] in [src].
    Without a source, no image is rendered. *)
Theorem missing_source_fields (cb : option callback) (inv : ToolInvocation)
  (props : list (jsstring * value)) :
  isPause inv = false ->
  argsStringable (args inv) = true ->
  state inv = state_result ->
  imageResult (result inv) = ret (VObject props) ->
  (forall fields,
      lookup (js "source") props = Some (VObject fields) ->
      optionalString (lookup (js "media_type") fields) = true ->
      optionalString (lookup (js "data") fields) = true ->
      exists b image,
        renderInvocation cb inv = ret b
        /\ images b = [image]
        /\ srcOf image
           = Some (js "data:"
                   ++ interpolated (lookup (js "media_type") fields)
                   ++ js ";base64,"
                   ++ interpolated (lookup (js "data") fields)))
  /\ (lookup (js "source") props = Some (VObject []) ->
      exists b image,
        renderInvocation cb inv = ret b
        /\ images b = [image]
        /\ srcOf image = Some (js "data:undefined;base64,undefined"))
  /\ (lookup (js "source") props = None ->
      exists b, renderInvocation cb inv = ret b /\ images b = []).
Proof.
  intros P A S Hir.
  assert (forall name fields,
             optionalString (lookup name fields) = true ->
             ToString (property name fields)
             = Normal (interpolated (lookup name fields))) as text.
  { intros name fields O. unfold property.
    destruct (lookup name fields) as [[]|]; try discriminate; reflexivity. }
  split; [|split].
  - intros fields Hsrc O1 O2.
    destruct (render_image cb inv props fields _ _ P A S Hir Hsrc
                (text _ _ O1) (text _ _ O2)) as (b & image & Hb & Hi & Hs & _).
    exists b, image. auto.
  - intros Hsrc.
    destruct (render_image cb inv props [] _ _ P A S Hir Hsrc
                eq_refl eq_refl) as (b & image & Hb & Hi & Hs & _).
    exists b, image. auto.
  - intros Hsrc.
    assert (imagePreview cb (result inv) = ret (Value VNull)) as Hp.
    { apply (imagePreview_no_source cb _ _ Hir). unfold property.
      rewrite Hsrc. reflexivity. }
    destruct (imageSlot_truthy cb inv _ S
                (imageResult_object_truthy _ _ Hir) Hp) as (a & Hslot & _).
    destruct (render_no_image cb inv _ P A Hslot eq_refl eq_refl)
      as (b & Hb & Hi & _).
    exists b. auto.
Qed.

(* ================================================================= *)
(** ** Further properties of the display name *)

Lemma underscoresToSpaces_no_underscore (s : jsstring) :
  ~ In 95%N (DisplayNameSpec.underscoresToSpaces s).
Proof.
  unfold DisplayNameSpec.underscoresToSpaces.
  induction s as [|c r IH]; simpl; [tauto|].
  intros [E | I]; [|exact (IH I)].
  destruct (N.eqb_spec c 95); [discriminate | congruence].
Qed.

Lemma underscoresToSpaces_fixed (s : jsstring) :
  ~ In 95%N s -> DisplayNameSpec.underscoresToSpaces s = s.
Proof.
  unfold DisplayNameSpec.underscoresToSpaces.
  induction s as [|c r IH]; simpl; [reflexivity|].
  intros N. destruct (N.eqb_spec c 95) as [->|_]; [tauto|].
  rewrite IH; tauto.
Qed.

(** Upper case of an ASCII code unit: one unit, ASCII, not lower case, and
    an underscore only if the unit was one. *)
Lemma toUpperCase1_ASCII (c : codeunit) :
  (c <? 128)%N = true ->
  exists u,
    Str.toUpperCase1 c = [u]
    /\ (u <? 128)%N = true
    /\ ((97 <=? u) && (u <=? 122))%N = false
    /\ (u = 95%N -> c = 95%N).
Proof.
  intros A. unfold Str.toUpperCase1. rewrite A.
  apply N.ltb_lt in A.
  destruct ((97 <=? c) && (c <=? 122))%N eqn:L.
  - apply andb_true_iff in L. destruct L as [L1 L2].
    apply N.leb_le in L1. apply N.leb_le in L2.
    exists (c - 32)%N. split; [reflexivity|]. split; [apply N.ltb_lt; lia|].
    split; [|lia].
    apply andb_false_iff. left. apply N.leb_gt. lia.
  - exists c. split; [reflexivity|]. split; [apply N.ltb_lt; lia|].
    split; [exact L | auto].
Qed.

(** The formatted name of a string that starts with ASCII: the upper case of
    its first unit, then the rest with spaces for underscores. *)
Lemma capitalize_ASCII (c : codeunit) (r : jsstring) :
  (c <? 128)%N = true ->
  exists u,
    capitalizeAndReplaceUnderscores (c :: r)
    = u :: DisplayNameSpec.underscoresToSpaces r
    /\ (u <? 128)%N = true
    /\ ((97 <=? u) && (u <=? 122))%N = false
    /\ u <> 95%N.
Proof.
  intros A. rewrite capitalize_displayName.
  unfold DisplayNameSpec.displayName.
  change (DisplayNameSpec.underscoresToSpaces (c :: r))
    with ((if (c =? 95)%N then 32%N else c)
          :: DisplayNameSpec.underscoresToSpaces r).
  cbn [DisplayNameSpec.upperFirst].
  assert (((if (c =? 95)%N then 32%N else c) <? 128)%N = true) as A'
      by (destruct (c =? 95)%N; [reflexivity | exact A]).
  destruct (toUpperCase1_ASCII _ A') as (u & -> & Hu & Hl & H95).
  exists u. repeat split; auto.
  intros E. specialize (H95 E).
  destruct (N.eqb_spec c 95); [discriminate | contradiction].
Qed.

(** X1. Formatting a name that is empty or starts with an ASCII character a
    second time changes nothing. *)
Theorem capitalize_idempotent (s : jsstring) :
  startsASCII s = true ->
  capitalizeAndReplaceUnderscores (capitalizeAndReplaceUnderscores s)
  = capitalizeAndReplaceUnderscores s.
Proof.
  destruct s as [|c r]; [reflexivity|]. cbn [startsASCII]. intros A.
  destruct (capitalize_ASCII c r A) as (u & -> & Hu & Hl & H95).
  rewrite capitalize_displayName. unfold DisplayNameSpec.displayName.
  rewrite underscoresToSpaces_fixed.
  - cbn [DisplayNameSpec.upperFirst]. unfold Str.toUpperCase1.
    rewrite Hu, Hl. reflexivity.
  - intros [E | I]; [exact (H95 E)|].
    exact (underscoresToSpaces_no_underscore r I).
Qed.

(** X2. The formatted name of a string that is empty or starts with an
    ASCII character has the length of the string and holds no underscore. *)
Theorem capitalize_length_no_underscore (s : jsstring) :
  startsASCII s = true ->
  List.length (capitalizeAndReplaceUnderscores s) = List.length s
  /\ ~ In 95%N (capitalizeAndReplaceUnderscores s).
Proof.
  destruct s as [|c r]; [split; [reflexivity | intros []]|].
  cbn [startsASCII]. intros A.
  destruct (capitalize_ASCII c r A) as (u & -> & _ & _ & H95).
  split.
  - unfold DisplayNameSpec.underscoresToSpaces. simpl.
    rewrite length_map. reflexivity.
  - intros [E | I]; [exact (H95 E)|].
    exact (underscoresToSpaces_no_underscore r I).
Qed.

(* ================================================================= *)
(** ** What a completed render looks like *)

Lemma ret_of_normal A (m : M A) (d : A) :
  silent m -> isNormal m = true ->
  m = ret (match fst m with Normal a => a | Throw _ => d end).
Proof.
  unfold silent, isNormal. destruct m as [[a|e] t]; simpl;
    [intros -> _; reflexivity | discriminate].
Qed.

Lemma bind_lift_inv A B (c : Completion A) (k : A -> M B) (b : B) :
  bind (lift c) k = ret b -> exists a, c = Normal a /\ k a = ret b.
Proof.
  intros E. apply bind_ret_inv in E. destruct E as (a & L & K).
  exists a. split; [|exact K]. inversion L. reflexivity.
Qed.

Lemma mapM_inv A B (f : A -> M B) (l : list A) (ys : list B) :
  mapM f l = ret ys -> Forall2 (fun x y => f x = ret y) l ys.
Proof.
  revert ys. induction l as [|x r IH]; cbn [mapM]; intros ys E.
  - inversion E. constructor.
  - apply bind_ret_inv in E. destruct E as (y & Hy & E).
    apply bind_ret_inv in E. destruct E as (ys' & Hys & E).
    inversion E. constructor; [exact Hy | exact (IH _ Hys)].
Qed.

Lemma mapM_ret A B (f : A -> M B) (l : list A) (ys : list B) :
  Forall2 (fun x y => f x = ret y) l ys -> mapM f l = ret ys.
Proof.
  induction 1 as [|x y r ys' Hy _ IH]; cbn [mapM]; [reflexivity|].
  rewrite Hy, bind_ret, IH, bind_ret. reflexivity.
Qed.

Lemma imagePreview_inv (cb : option callback) (r : value) (p : node) :
  imagePreview cb r = ret p ->
  p = Value VNull
  \/ exists part1 part2, p = imageElement cb (dataURI part1 part2).
Proof.
  unfold imagePreview. intros E.
  apply bind_ret_inv in E. destruct E as (ir & _ & E).
  apply bind_lift_inv in E. destruct E as (source & _ & E).
  destruct (ToBoolean source); [|left; inversion E; reflexivity].
  apply bind_lift_inv in E. destruct E as (source1 & _ & E).
  apply bind_lift_inv in E. destruct E as (media_type & _ & E).
  apply bind_lift_inv in E. destruct E as (part1 & _ & E).
  apply bind_lift_inv in E. destruct E as (source2 & _ & E).
  apply bind_lift_inv in E. destruct E as (data & _ & E).
  apply bind_lift_inv in E. destruct E as (part2 & _ & E).
  right. exists part1, part2. inversion E. reflexivity.
Qed.

(** The child of the image slot: a value, or the container with either
    [null] or one image in it. *)
Lemma imageSlot_inv (cb : option callback) (inv : ToolInvocation)
  (slot : node) :
  imageSlot cb inv = ret slot ->
  (exists v, slot = Value v)
  \/ (exists a p,
        slot = Element div a [p] /\ onClick a = None
        /\ (p = Value VNull
            \/ exists part1 part2,
                 p = imageElement cb (dataURI part1 part2))).
Proof.
  unfold imageSlot. intros E.
  destruct (State_eqb (state inv) state_result);
    [|left; inversion E; eauto].
  destruct (ToBoolean (result inv)); [|left; inversion E; eauto].
  apply bind_ret_inv in E. destruct E as (p & Hp & E).
  right. inversion E. eexists _, p. split; [reflexivity|].
  split; [reflexivity|]. exact (imagePreview_inv cb _ p Hp).
Qed.

Lemma slot_images (cb : option callback) (inv : ToolInvocation)
  (slot : node) :
  imageSlot cb inv = ret slot ->
  images slot = []
  \/ exists part1 part2,
       images slot = [imageElement cb (dataURI part1 part2)].
Proof.
  intros E.
  destruct (imageSlot_inv cb inv slot E)
    as [(v & ->) | (a & p & -> & _ & [-> | (p1 & p2 & ->)])].
  - left. reflexivity.
  - left. reflexivity.
  - right. exists p1, p2. reflexivity.
Qed.

Lemma slot_handlers (cb : option callback) (inv : ToolInvocation)
  (slot : node) :
  imageSlot cb inv = ret slot ->
  Forall (handlerSound cb) (descendants slot).
Proof.
  intros E.
  destruct (imageSlot_inv cb inv slot E)
    as [(v & ->) | (a & p & -> & Ha & [-> | (p1 & p2 & ->)])].
  - apply Forall_cons; [exact I | constructor].
  - cbn [descendants flat_map app].
    apply Forall_cons; [exact Ha|].
    apply Forall_cons; [exact I | constructor].
  - cbn [descendants flat_map app imageElement].
    apply Forall_cons; [exact Ha|].
    apply Forall_cons; [|constructor].
    eexists; split; reflexivity.
Qed.

Lemma paramRow_handlers (cb : option callback) (entry : jsstring * value)
  (row : node) :
  paramRow entry = ret row -> Forall (handlerSound cb) (descendants row).
Proof.
  destruct entry as [k v]. unfold paramRow. intros E.
  apply bind_lift_inv in E. destruct E as (text & _ & E).
  injection E as <-. cbn [descendants flat_map app].
  repeat (apply Forall_cons; [first [reflexivity | exact I]|]).
  constructor.
Qed.

Lemma rows_handlers (cb : option callback)
  (entries : list (jsstring * value)) (rows : list node) :
  mapM paramRow entries = ret rows ->
  Forall (handlerSound cb) (flat_map descendants rows).
Proof.
  intros E. apply mapM_inv in E.
  induction E as [|entry row r rows' Hrow _ IH]; [constructor|].
  cbn [flat_map]. apply Forall_app. split; [|exact IH].
  exact (paramRow_handlers cb entry row Hrow).
Qed.

Lemma block_handlers (cb : option callback) (inv : ToolInvocation)
  (title : jsstring) (rows : list node) (slot : node) :
  Forall (handlerSound cb) (flat_map descendants rows) ->
  Forall (handlerSound cb) (descendants slot) ->
  Forall (handlerSound cb) (descendants (block inv title rows slot)).
Proof.
  intros R S. unfold block.
  destruct (state inv); cbn -[handlerSound];
    repeat (apply Forall_cons; [first [reflexivity | exact I]|]);
    rewrite !app_nil_r;
    repeat (apply Forall_app; split); auto.
Qed.

(** What [renderInvocation] returns when it returns: [null] for a skipped
    invocation, otherwise the block of rows and a slot that were rendered. *)
Lemma renderInvocation_cases (cb : option callback) (inv : ToolInvocation)
  (b : node) :
  renderInvocation cb inv = ret b ->
  (isPause inv = true /\ b = Value VNull)
  \/ (isPause inv = false
      /\ exists rows slot,
           b = block inv (capitalizeAndReplaceUnderscores (toolName inv))
                 rows slot
           /\ mapM paramRow (argEntries (args inv)) = ret rows
           /\ imageSlot cb inv = ret slot
           /\ Forall plain rows).
Proof.
  intros R. destruct (isPause inv) eqn:P.
  - left. rewrite (renderInvocation_pause cb inv P) in R.
    inversion R. auto.
  - right. split; [reflexivity|].
    destruct (renderInvocation_inv cb inv b P R)
      as (rows & slot & -> & Hslot & _ & Hplain).
    exists rows, slot. repeat split; auto.
    unfold renderInvocation in R.
    rewrite Object_entries_or_else, bind_lift in R.
    unfold isPause in P. rewrite P in R.
    apply bind_ret_inv in R. destruct R as (rows' & Hrows & R).
    apply bind_ret_inv in R. destruct R as (slot' & _ & R).
    inversion R. subst. exact Hrows.
Qed.

(* ================================================================= *)
(** ** Further properties of the component *)

(** X3. A rendered block shows at most one image, and the [src] of that
    image is a data URI: ["data:"], a media type, [";base64,"], the data. *)
Theorem at_most_one_image (cb : option callback) (inv : ToolInvocation)
  (b : node) :
  renderInvocation cb inv = ret b ->
  images b = []
  \/ exists image media data,
       images b = [image]
       /\ hasTag img image = true
       /\ srcOf image = Some (js "data:" ++ media ++ js ";base64," ++ data).
Proof.
  intros R.
  destruct (renderInvocation_cases cb inv b R)
    as [(_ & ->) | (_ & rows & slot & -> & _ & Hslot & Hplain)].
  - left. reflexivity.
  - rewrite (block_images _ _ _ _ Hplain).
    destruct (slot_images cb inv slot Hslot) as [-> | (p1 & p2 & ->)].
    + left. reflexivity.
    + right. eexists _, p1, p2. repeat split.
Qed.

Lemma rendered_handlers (cb : option callback) (inv : ToolInvocation)
  (b : node) :
  renderInvocation cb inv = ret b ->
  Forall (handlerSound cb) (descendants b).
Proof.
  intros R.
  destruct (renderInvocation_cases cb inv b R)
    as [(_ & ->) | (_ & rows & slot & -> & Hrows & Hslot & _)].
  - apply Forall_cons; [exact I | constructor].
  - apply block_handlers.
    + exact (rows_handlers cb _ rows Hrows).
    + exact (slot_handlers cb inv slot Hslot).
Qed.

Lemma tree_handlers (props : ToolRenderProps) (tree : node) :
  ToolInvocations props = ret tree ->
  Forall (handlerSound (onImageClick props)) (descendants tree).
Proof.
  unfold ToolInvocations. destruct (toolInvocations props) as [invs|].
  2:{ intros E. inversion E. apply Forall_cons; [exact I | constructor]. }
  intros E. apply bind_ret_inv in E. destruct E as (children & Hm & E).
  injection E as <-. cbn [descendants flat_map]. rewrite app_nil_r.
  apply Forall_cons; [reflexivity|]. apply Forall_cons; [exact I|].
  apply mapM_inv in Hm.
  induction Hm as [|inv child r children' Hchild _ IH]; [constructor|].
  cbn [flat_map]. apply Forall_app. split; [|exact IH].
  exact (rendered_handlers _ inv child Hchild).
Qed.

(** X4. In a rendered tree a click on a node that is not an image does
    nothing; every image has a [src], and a click on it calls
    [onImageClick] exactly once, with the [src] of that very image (it does
    nothing only when no callback was given). *)
Theorem clicks_pass_own_src (props : ToolRenderProps) (tree n : node) :
  ToolInvocations props = ret tree ->
  In n (descendants tree) ->
  (hasTag img n = false -> click n = ret tt)
  /\ (hasTag img n = true ->
      exists uri,
        srcOf n = Some uri
        /\ click n = match onImageClick props with
                     | Some f => (Normal tt, [Invoked f uri])
                     | None => (Normal tt, [])
                     end).
Proof.
  intros T Hin. pose proof (tree_handlers props tree T) as Hall.
  rewrite Forall_forall in Hall. specialize (Hall n Hin).
  destruct n as [t a children| |];
    try (split; [reflexivity | discriminate]).
  cbn [handlerSound click hasTag srcOf] in *.
  assert (tag_eqb img t = tag_eqb t img) as Sym by (destruct t; reflexivity).
  rewrite Sym. destruct (tag_eqb t img).
  - split; [discriminate|]. intros _.
    destruct Hall as (uri & Hsrc & ->). exists uri. split; [exact Hsrc|].
    destruct (onImageClick props); reflexivity.
  - split; [|discriminate]. intros _. rewrite Hall. reflexivity.
Qed.

(** X5. The list is rendered as a whole or not at all: when the rendering
    of one invocation throws, [ToolInvocations] throws and no block of any
    other invocation is returned. *)
Theorem one_failure_fails_all (cb : option callback)
  (invs : list ToolInvocation) (inv : ToolInvocation) :
  In inv invs ->
  renderInvocation cb inv = lift (Throw TypeError) ->
  ToolInvocations {| toolInvocations := Some invs; onImageClick := cb |}
  = lift (Throw TypeError).
Proof.
  intros Hin Hthrow. unfold ToolInvocations.
  cbn [toolInvocations onImageClick].
  assert (mapM (renderInvocation cb) invs = lift (Throw TypeError)) as ->;
    [|reflexivity].
  induction invs as [|x r IH]; [contradiction|]. cbn [mapM].
  pose proof (silent_renderInvocation cb x) as S. unfold silent in S.
  destruct (renderInvocation cb x) as [[b|[]] t] eqn:R; simpl in S; subst t.
  - destruct Hin as [-> | Hin]; [rewrite R in Hthrow; discriminate|].
    change (Normal b, @nil event) with (ret b).
    rewrite bind_ret, (IH Hin). reflexivity.
  - reflexivity.
Qed.

(** X6. Before completion the result is never read and the callback is
    never captured: in state [call] or [partial-call] the outcome is the
    same for every result and every callback. *)
Theorem result_unused_before_completion (cb cb' : option callback)
  (inv : ToolInvocation) (r : value) :
  state inv <> state_result ->
  renderInvocation cb' (withResult inv r) = renderInvocation cb inv.
Proof.
  intros S. unfold renderInvocation, imageSlot, block, withResult.
  cbn [toolCallId toolName args state result].
  destruct (state inv); [reflexivity | contradiction | reflexivity].
Qed.

Lemma Array_find_first (pre post : list value) (image : value) :
  forallb (fun v => negb (nullish v) && negb (isImage v)) pre = true ->
  isImage image = true ->
  Array_find
    (fun item =>
       let? t := GetV item (js "type") in
       Normal (strictEqualsString t (js "image")))
    (pre ++ image :: post)
  = Normal image.
Proof.
  intros P I. induction pre as [|x r IH]; cbn [app Array_find].
  - assert (nullish image = false) as N by (destruct image; try discriminate; reflexivity).
    rewrite (type_test _ N). cbn [bindC]. rewrite I. reflexivity.
  - cbn [forallb] in P. apply andb_true_iff in P. destruct P as [Px Pr].
    apply andb_true_iff in Px. destruct Px as [Nx Ix].
    apply negb_true_iff in Nx. apply negb_true_iff in Ix.
    rewrite (type_test _ Nx). cbn [bindC]. rewrite Ix. exact (IH Pr).
Qed.

Lemma Array_find_nullish (pre post : list value) (x : value) :
  forallb (fun v => negb (nullish v) && negb (isImage v)) pre = true ->
  nullish x = true ->
  Array_find
    (fun item =>
       let? t := GetV item (js "type") in
       Normal (strictEqualsString t (js "image")))
    (pre ++ x :: post)
  = Throw TypeError.
Proof.
  intros P N. induction pre as [|y r IH]; cbn [app Array_find].
  - destruct x; try discriminate; reflexivity.
  - cbn [forallb] in P. apply andb_true_iff in P. destruct P as [Py Pr].
    apply andb_true_iff in Py. destruct Py as [Ny Iy].
    apply negb_true_iff in Ny. apply negb_true_iff in Iy.
    rewrite (type_test _ Ny). cbn [bindC]. rewrite Iy. exact (IH Pr).
Qed.

(** X7. The selection stops at the first image of an array: what follows
    it is not read, so a later image is never shown and a later [null]
    does no harm. *)
Theorem first_image_wins (pre post : list value) (image : value) :
  forallb (fun v => negb (nullish v) && negb (isImage v)) pre = true ->
  isImage image = true ->
  imageResult (VArray (pre ++ image :: post)) = ret image.
Proof.
  intros P I. unfold imageResult. rewrite (Array_find_first _ _ _ P I).
  reflexivity.
Qed.

(** X8. A [null] or [undefined] element that comes before any image in the
    result array of a completed invocation makes its rendering throw a
    [TypeError]. *)
Theorem null_before_image_throws (cb : option callback)
  (inv : ToolInvocation) (pre post : list value) (x : value) :
  isPause inv = false ->
  argsStringable (args inv) = true ->
  state inv = state_result ->
  result inv = VArray (pre ++ x :: post) ->
  forallb (fun v => negb (nullish v) && negb (isImage v)) pre = true ->
  nullish x = true ->
  renderInvocation cb inv = lift (Throw TypeError).
Proof.
  intros P A S R Hpre N.
  destruct (rows_of_stringable _ A) as (rows & Hrows & _).
  unfold renderInvocation. rewrite Object_entries_or_else, bind_lift.
  unfold isPause in P. rewrite P, Hrows, bind_ret.
  unfold imageSlot. rewrite S, R. cbn [State_eqb ToBoolean].
  unfold imagePreview, imageResult.
  rewrite (Array_find_nullish _ _ _ Hpre N). reflexivity.
Qed.

(** X9. A completed invocation with a text result shows no image; a text
    that is not empty still gets the container of the image slot, with
    nothing in it, and the empty text gets no container. *)
Theorem text_result_placeholder (cb : option callback)
  (inv : ToolInvocation) (s : jsstring) :
  isPause inv = false ->
  argsStringable (args inv) = true ->
  state inv = state_result ->
  result inv = VString s ->
  exists b,
    renderInvocation cb inv = ret b
    /\ images b = []
    /\ slotOf b
       = Some match s with
              | [] => Value (VString [])
              | _ :: _ =>
                  Element div
                    (class ["inline-flex"; "h-[39px]"; "w-[71px]";
                            "flex-col"; "items-start"; "justify-start";
                            "gap-2.5"]%string)
                    [Value VNull]
              end.
Proof.
  intros P A S R.
  destruct (rows_of_stringable _ A) as (rows & Hrows & _ & Hplain).
  assert (exists slot,
             imageSlot cb inv = ret slot
             /\ images slot = []
             /\ slot = match s with
                       | [] => Value (VString [])
                       | _ :: _ =>
                           Element div
                             (class ["inline-flex"; "h-[39px]"; "w-[71px]";
                                     "flex-col"; "items-start";
                                     "justify-start"; "gap-2.5"]%string)
                             [Value VNull]
                       end) as (slot & Hslot & Hi & Hs).
  { unfold imageSlot. rewrite S, R. destruct s; cbn [State_eqb ToBoolean].
    - eexists; repeat split.
    - eexists; repeat split. }
  exists (block inv (capitalizeAndReplaceUnderscores (toolName inv)) rows
            slot).
  split; [apply renderInvocation_block; assumption|].
  rewrite (block_images _ _ _ _ Hplain), Hi, <- Hs. split; reflexivity.
Qed.

(** X10. Only an object with properties, an array with elements or a string
    with characters gives rows: for every other value of [args] (absent,
    [0], [false], [true], a number, the empty string, array or object) the
    block has no row. *)
Theorem no_entries_no_rows (cb : option callback) (inv : ToolInvocation) :
  isPause inv = false ->
  (state inv = state_result -> resultTyped (result inv) = true) ->
  withoutEntries (args inv) = true ->
  exists b, renderInvocation cb inv = ret b /\ rowsOf b = [].
Proof.
  intros P T W.
  assert (argEntries (args inv) = []) as Hnil.
  { unfold argEntries, or_else.
    destruct (args inv) as [| |b|n|s|items|props]; try reflexivity.
    - destruct b; reflexivity.
    - simpl. destruct (Number_toBoolean n); reflexivity.
    - destruct s; [reflexivity | discriminate].
    - destruct items; [reflexivity | discriminate].
    - destruct props; [reflexivity | discriminate]. }
  assert (argsStringable (args inv) = true) as A
      by (unfold argsStringable; rewrite Hnil; reflexivity).
  destruct (render_status cb inv P A T) as (b & Hb & _ & _ & _ & Hshow).
  exists b. split; [exact Hb|].
  rewrite Hnil in Hshow. inversion Hshow. reflexivity.
Qed.

(** X11. The fields of the source are written into the data URI through
    [ToString] whatever their type: a number gives its digits, [null] the
    text ["null"]. *)
Theorem source_fields_converted (cb : option callback)
  (inv : ToolInvocation) (props fields : list (jsstring * value))
  (media data : jsstring) :
  isPause inv = false ->
  argsStringable (args inv) = true ->
  state inv = state_result ->
  imageResult (result inv) = ret (VObject props) ->
  lookup (js "source") props = Some (VObject fields) ->
  ToString (property (js "media_type") fields) = Normal media ->
  ToString (property (js "data") fields) = Normal data ->
  exists b image,
    renderInvocation cb inv = ret b
    /\ images b = [image]
    /\ srcOf image = Some (js "data:" ++ media ++ js ";base64," ++ data).
Proof.
  intros P A S Hir Hsrc H1 H2.
  destruct (render_image cb inv props fields media data P A S Hir Hsrc H1 H2)
    as (b & image & Hb & Hi & Hs & _).
  exists b, image. auto.
Qed.

Lemma keys_of_blocks (cb : option callback) (invs : list ToolInvocation)
  (blocks : list node) :
  Forall2
    (fun inv b =>
       renderInvocation cb inv = ret b /\ keyOf b = Some (toolCallId inv))
    invs blocks ->
  map keyOf blocks = map (fun inv => Some (toolCallId inv)) invs.
Proof.
  induction 1 as [|inv b r bs [_ Hk] _ IH]; [reflexivity|].
  cbn [map]. rewrite Hk, IH. reflexivity.
Qed.

Lemma NoDup_map_Some A (l : list A) : NoDup l -> NoDup (map Some l).
Proof.
  induction 1 as [|x r Hx _ IH]; [constructor|].
  cbn [map]. constructor; [|exact IH].
  intros I. apply in_map_iff in I. destruct I as (y & E & Hy).
  inversion E. subst. contradiction.
Qed.

(** X12. The keys of the rendered blocks are the [toolCallId]s of the
    invocations that are not skipped: when these ids are distinct, no two
    blocks of the list share a key. *)
Theorem block_keys_distinct (cb : option callback)
  (invs : list ToolInvocation) :
  Forall (fun inv => isPause inv = false -> wellFormed inv = true) invs ->
  NoDup (map toolCallId (filter (fun inv => negb (isPause inv)) invs)) ->
  exists a children,
    ToolInvocations {| toolInvocations := Some invs; onImageClick := cb |}
    = ret (Element div a [Items children])
    /\ map keyOf (filter isElement children)
       = map (fun inv => Some (toolCallId inv))
           (filter (fun inv => negb (isPause inv)) invs)
    /\ NoDup (map keyOf (filter isElement children)).
Proof.
  intros W D.
  destruct (mapM_renderInvocation cb invs W) as (children & Hm & Hf).
  unfold ToolInvocations. cbn [toolInvocations onImageClick].
  rewrite Hm, bind_ret. eexists _, children. split; [reflexivity|].
  pose proof (keys_of_blocks cb _ _ Hf) as K. split; [exact K|].
  rewrite K, <- map_map. apply NoDup_map_Some, D.
Qed.

Lemma slot_marks (cb : option callback) (inv : ToolInvocation)
  (slot : node) :
  imageSlot cb inv = ret slot ->
  existsb (hasClass "animate-spin") (descendants slot) = false
  /\ existsb (hasTag CheckIcon) (descendants slot) = false.
Proof.
  unfold imageSlot. intros E.
  destruct (State_eqb (state inv) state_result);
    [|injection E as <-; split; reflexivity].
  destruct (ToBoolean (result inv));
    [|injection E as <-; split; reflexivity].
  apply bind_ret_inv in E. destruct E as (p & Hp & E). injection E as <-.
  destruct (imagePreview_inv cb _ p Hp) as [-> | (p1 & p2 & ->)];
    split; reflexivity.
Qed.

(** X13. In every rendered block the marks follow the state alone: the
    spinner is there exactly when the opacity is reduced (state [call]), the
    checkmark exactly in state [result], and never both marks together. *)
Theorem marks_follow_state (cb : option callback) (inv : ToolInvocation)
  (b : node) :
  renderInvocation cb inv = ret b ->
  isPause inv = false ->
  carriesSpinner b = State_eqb (state inv) state_call
  /\ reducedOpacity b = carriesSpinner b
  /\ carriesCheckmark b = State_eqb (state inv) state_result
  /\ carriesSpinner b && carriesCheckmark b = false.
Proof.
  intros R P.
  destruct (renderInvocation_cases cb inv b R)
    as [(P' & _) | (_ & rows & slot & -> & _ & Hslot & Hplain)];
    [rewrite P in P'; discriminate|].
  destruct (slot_marks cb inv slot Hslot) as [Hs Hc].
  rewrite block_opacity, (block_spinner _ _ _ _ Hplain),
    (block_checkmark _ _ _ _ Hplain), Hs, Hc, !orb_false_r.
  destruct (state inv); repeat split.
Qed.

(** X14. A rendered list keeps the positions of its invocations: the child
    array has one entry per invocation, [null] where the invocation is
    skipped and elsewhere its block, keyed by its [toolCallId]. *)
Theorem positions_kept (cb : option callback) (invs : list ToolInvocation)
  (tree : node) :
  ToolInvocations {| toolInvocations := Some invs; onImageClick := cb |}
  = ret tree ->
  exists children,
    tree = Element div (class ["flex"; "w-full"; "flex-col"; "gap-2"]%string)
             [Items children]
    /\ List.length children = List.length invs
    /\ Forall2
         (fun inv child =>
            if isPause inv then child = Value VNull
            else isElement child = true
                 /\ keyOf child = Some (toolCallId inv))
         invs children.
Proof.
  unfold ToolInvocations. cbn [toolInvocations onImageClick]. intros E.
  apply bind_ret_inv in E. destruct E as (children & Hm & E).
  injection E as <-. exists children. split; [reflexivity|].
  apply mapM_inv in Hm. split.
  - symmetry. exact (Forall2_length Hm).
  - eapply Forall2_impl; [|exact Hm]. intros inv child R.
    destruct (renderInvocation_cases cb inv child R)
      as [(-> & ->) | (-> & rows & slot & -> & _)];
      [reflexivity | split; reflexivity].
Qed.

(** X15. An image result whose [source] is falsy ([null], absent, an empty
    string) is shown as a completed invocation without image, and nothing
    is thrown. *)
Theorem falsy_source_no_image (cb : option callback) (inv : ToolInvocation)
  (props : list (jsstring * value)) :
  isPause inv = false ->
  argsStringable (args inv) = true ->
  state inv = state_result ->
  imageResult (result inv) = ret (VObject props) ->
  ToBoolean (property (js "source") props) = false ->
  exists b,
    renderInvocation cb inv = ret b
    /\ images b = []
    /\ carriesCheckmark b = true.
Proof.
  intros P A S Hir F.
  pose proof (imagePreview_no_source cb _ _ Hir F) as Hp.
  destruct (imageSlot_truthy cb inv _ S
              (imageResult_object_truthy _ _ Hir) Hp) as (a & Hslot & _).
  destruct (render_no_image cb inv _ P A Hslot eq_refl eq_refl)
    as (b & Hb & Hi & Hc & _).
  exists b. rewrite S in Hc. auto.
Qed.

End Properties.

(* ================================================================= *)
(** ** The contract on the sample invocations *)

Import Examples.
#[local] Existing Instance plainHost.

Lemma image_src_and_click_screenshot :
  isPause screenshot = false
  /\ argsStringable (args screenshot) = true
  /\ state screenshot = state_result
  /\ imageResult (result screenshot) = ret (VObject pngImage)
  /\ lookup (js "source") pngImage = Some (VObject pngSource)
  /\ lookup (js "media_type") pngSource = Some (VString (js "image/png"))
  /\ lookup (js "data") pngSource = Some (VString (js "AAAA"))
  /\ exists b image,
       renderInvocation viewer screenshot = ret b
       /\ images b = [image]
       /\ srcOf image = Some (js "data:image/png;base64,AAAA")
       /\ click image
          = (Normal tt,
             [Invoked "openViewer"%string (js "data:image/png;base64,AAAA")]).
Proof.
  repeat (split; [reflexivity|]).
  apply (@image_src_and_click plainHost viewer screenshot pngImage pngSource
           (js "image/png") (js "AAAA"));
    reflexivity.
Defined.


Lemma display_name_formatting_pending :
  isPause pending = false
  /\ wellFormed pending = true
  /\ exists b,
       renderInvocation viewer pending = ret b
       /\ titleOf b = Some (js "Get user data")
       /\ Forall2
            (fun entry row =>
               exists text,
                 rowCells row
                 = Some (fst entry,
                         capitalizeAndReplaceUnderscores (fst entry), text))
            [(js "user_id", VNumber 42%Z)] (rowsOf b).
Proof.
  repeat (split; [reflexivity|]).
  destruct (@display_name_formatting plainHost) as (_ & _ & _ & _ & shown).
  apply (shown viewer pending); reflexivity.
Defined.


Lemma call_and_result_indicators_samples :
  (isPause pending = false
   /\ argsStringable (args pending) = true
   /\ exists b,
        renderInvocation viewer pending = ret b
        /\ reducedOpacity b = true
        /\ carriesSpinner b = true
        /\ carriesCheckmark b = false)
  /\ (isPause screenshot = false
      /\ argsStringable (args screenshot) = true
      /\ resultTyped (result screenshot) = true
      /\ exists b,
           renderInvocation viewer screenshot = ret b
           /\ carriesCheckmark b = true
           /\ reducedOpacity b = false
           /\ carriesSpinner b = false).
Proof.
  split.
  - repeat (split; [reflexivity|]).
    destruct (@call_and_result_indicators plainHost viewer pending
                eq_refl eq_refl (fun _ => eq_refl)) as (b & Hb & Hcall & _).
    exists b. split; [exact Hb | exact (Hcall eq_refl)].
  - repeat (split; [reflexivity|]).
    destruct (@call_and_result_indicators plainHost viewer screenshot
                eq_refl eq_refl (fun _ => eq_refl)) as (b & Hb & _ & Hres).
    exists b. split; [exact Hb | exact (Hres eq_refl)].
Defined.

Lemma partial_call_no_indicator_streaming :
  isPause streaming = false
  /\ argsStringable (args streaming) = true
  /\ state streaming = state_partial_call
  /\ exists b,
       renderInvocation viewer streaming = ret b
       /\ carriesSpinner b = false
       /\ carriesCheckmark b = false
       /\ reducedOpacity b = false.
Proof.
  repeat (split; [reflexivity|]).
  apply (@partial_call_no_indicator plainHost viewer streaming);
    reflexivity.
Defined.



Lemma missing_source_fields_emptySource :
  isPause emptySource = false
  /\ argsStringable (args emptySource) = true
  /\ state emptySource = state_result
  /\ imageResult (result emptySource) = ret (VObject emptyImage)
  /\ lookup (js "source") emptyImage = Some (VObject [])
  /\ exists b image,
       renderInvocation viewer emptySource = ret b
       /\ images b = [image]
       /\ srcOf image = Some (js "data:undefined;base64,undefined").
Proof.
  repeat (split; [reflexivity|]).
  destruct (@missing_source_fields plainHost viewer emptySource emptyImage
              eq_refl eq_refl eq_refl eq_refl) as (_ & empty & _).
  apply empty. reflexivity.
Defined.

(* ================================================================= *)
(** ** The conversions at their edges *)

Example String_of_array :
  ToString (VArray [VNull; VNumber 1%Z; VArray [VBool true; VUndefined];
                    VString (js "s")])
  = Normal (js ",1,true,,s").
Proof. reflexivity. Qed.

Example String_of_object :
  ToString (VObject [(js "a", VNumber 1%Z)]) = Normal (js "[object Object]").
Proof. reflexivity. Qed.

(** An own [toString] property that is not a function leaves the object
    without a primitive value. *)
Example String_own_toString :
  ToString (VObject [(js "toString", VNumber 1%Z)]) = Throw TypeError.
Proof. reflexivity. Qed.

(** What [|| {}] at line 42 guards against. *)
Example entries_guard :
  Object_entries VUndefined = Throw TypeError
  /\ Object_entries VNull = Throw TypeError
  /\ Object_entries (or_else VUndefined (VObject [])) = Normal []
  /\ Object_entries (or_else VNull (VObject [])) = Normal [].
Proof. repeat split. Qed.

(** [item.type] on a [null] element throws before any element is tested. *)
Example null_item_throws :
  renderInvocation viewer nullItem = lift (Throw TypeError).
Proof. reflexivity. Qed.

Example first_unit_only :
  capitalizeAndReplaceUnderscores (js "__init__") = js "  init  "
  /\ capitalizeAndReplaceUnderscores (js "already_Upper") = js "Already Upper"
  /\ capitalizeAndReplaceUnderscores [10%N; 97%N] = [10%N; 97%N].
Proof. repeat split. Qed.

(* ================================================================= *)
(** ** The further properties on the sample invocations *)

Lemma capitalize_idempotent_sample :
  startsASCII (js "get_user_data") = true
  /\ capitalizeAndReplaceUnderscores
       (capitalizeAndReplaceUnderscores (js "get_user_data"))
     = capitalizeAndReplaceUnderscores (js "get_user_data").
Proof.
  split; [reflexivity|].
  apply (@capitalize_idempotent plainHost (js "get_user_data")). reflexivity.
Defined.

Lemma capitalize_length_no_underscore_sample :
  startsASCII (js "_get_user_data") = true
  /\ List.length (capitalizeAndReplaceUnderscores (js "_get_user_data"))
     = List.length (js "_get_user_data")
  /\ ~ In 95%N (capitalizeAndReplaceUnderscores (js "_get_user_data")).
Proof.
  split; [reflexivity|].
  apply (@capitalize_length_no_underscore plainHost (js "_get_user_data")).
  reflexivity.
Defined.

Lemma at_most_one_image_sample :
  renderInvocation viewer nullAfterImage = ret (rendered nullAfterImage)
  /\ (images (rendered nullAfterImage) = []
      \/ exists image media data,
           images (rendered nullAfterImage) = [image]
           /\ hasTag img image = true
           /\ srcOf image
              = Some (js "data:" ++ media ++ js ";base64," ++ data)).
Proof.
  assert (renderInvocation viewer nullAfterImage
          = ret (rendered nullAfterImage)) as R.
  { apply (@ret_of_normal plainHost);
      [apply silent_renderInvocation | vm_compute; reflexivity]. }
  split; [exact R|].
  exact (@at_most_one_image plainHost viewer nullAfterImage
           (rendered nullAfterImage) R).
Defined.

Lemma clicks_pass_own_src_sample :
  ToolInvocations
    {| toolInvocations := Some conversation; onImageClick := viewer |}
  = ret (renderedList conversation)
  /\ In (nth 0 (images (renderedList conversation)) (Value VNull))
       (descendants (renderedList conversation))
  /\ hasTag img (nth 0 (images (renderedList conversation)) (Value VNull))
     = true
  /\ srcOf (nth 0 (images (renderedList conversation)) (Value VNull))
     = Some (js "data:image/png;base64,AAAA")
  /\ click (nth 0 (images (renderedList conversation)) (Value VNull))
     = (Normal tt,
        [Invoked "openViewer"%string (js "data:image/png;base64,AAAA")]).
Proof.
  assert (ToolInvocations
            {| toolInvocations := Some conversation;
               onImageClick := viewer |}
          = ret (renderedList conversation)) as T.
  { apply (@ret_of_normal plainHost);
      [apply silent_ToolInvocations | vm_compute; reflexivity]. }
  assert (In (nth 0 (images (renderedList conversation)) (Value VNull))
            (descendants (renderedList conversation))) as Hin.
  { assert (In (nth 0 (images (renderedList conversation)) (Value VNull))
              (images (renderedList conversation))) as Him
        by (apply nth_In; vm_compute; constructor).
    unfold images in Him at 2. apply filter_In in Him. exact (proj1 Him). }
  assert (hasTag img
            (nth 0 (images (renderedList conversation)) (Value VNull))
          = true) as Himg by (vm_compute; reflexivity).
  assert (srcOf (nth 0 (images (renderedList conversation)) (Value VNull))
          = Some (js "data:image/png;base64,AAAA")) as Hsrc
      by (vm_compute; reflexivity).
  split; [exact T|]. split; [exact Hin|]. split; [exact Himg|].
  split; [exact Hsrc|].
  destruct (@clicks_pass_own_src plainHost
              {| toolInvocations := Some conversation;
                 onImageClick := viewer |}
              (renderedList conversation)
              (nth 0 (images (renderedList conversation)) (Value VNull))
              T Hin) as (_ & onImage).
  destruct (onImage Himg) as (uri & Huri & Hclick).
  rewrite Hsrc in Huri. injection Huri as <-. exact Hclick.
Defined.

Lemma one_failure_fails_all_sample :
  In nullItem [screenshot; nullItem; pending]
  /\ renderInvocation viewer nullItem = lift (Throw TypeError)
  /\ ToolInvocations
       {| toolInvocations := Some [screenshot; nullItem; pending];
          onImageClick := viewer |}
     = lift (Throw TypeError).
Proof.
  assert (In nullItem [screenshot; nullItem; pending]) as Hin
      by (right; left; reflexivity).
  split; [exact Hin|]. split; [reflexivity|].
  apply (@one_failure_fails_all plainHost viewer
           [screenshot; nullItem; pending] nullItem Hin).
  reflexivity.
Defined.

Lemma result_unused_before_completion_sample :
  state pending <> state_result
  /\ renderInvocation None (withResult pending (VArray [VNull]))
     = renderInvocation viewer pending.
Proof.
  assert (state pending <> state_result) as S by discriminate.
  split; [exact S|].
  apply (@result_unused_before_completion plainHost viewer None pending
           (VArray [VNull]) S).
Defined.

Lemma first_image_wins_sample :
  forallb (fun v => negb (nullish v) && negb (isImage v))
    [VObject [(js "type", VString (js "text"))]] = true
  /\ isImage (VObject pngImage) = true
  /\ imageResult (result nullAfterImage) = ret (VObject pngImage).
Proof.
  split; [reflexivity|]. split; [reflexivity|].
  apply (@first_image_wins plainHost
           [VObject [(js "type", VString (js "text"))]]
           [VNull; VObject emptyImage] (VObject pngImage));
    reflexivity.
Defined.

Lemma null_before_image_throws_sample :
  isPause nullItem = false
  /\ argsStringable (args nullItem) = true
  /\ state nullItem = state_result
  /\ result nullItem = VArray ([] ++ VNull :: [])
  /\ nullish VNull = true
  /\ renderInvocation viewer nullItem = lift (Throw TypeError).
Proof.
  repeat (split; [reflexivity|]).
  apply (@null_before_image_throws plainHost viewer nullItem [] [] VNull);
    reflexivity.
Defined.

Lemma text_result_placeholder_sample :
  isPause textResult = false
  /\ argsStringable (args textResult) = true
  /\ state textResult = state_result
  /\ result textResult = VString (js "done")
  /\ exists b,
       renderInvocation viewer textResult = ret b
       /\ images b = []
       /\ slotOf b
          = Some (Element div
                    (class ["inline-flex"; "h-[39px]"; "w-[71px]";
                            "flex-col"; "items-start"; "justify-start";
                            "gap-2.5"]%string)
                    [Value VNull]).
Proof.
  repeat (split; [reflexivity|]).
  apply (@text_result_placeholder plainHost viewer textResult (js "done"));
    reflexivity.
Defined.

Lemma no_entries_no_rows_sample :
  isPause textResult = false
  /\ resultTyped (result textResult) = true
  /\ withoutEntries (args textResult) = true
  /\ exists b, renderInvocation viewer textResult = ret b /\ rowsOf b = [].
Proof.
  repeat (split; [reflexivity|]).
  apply (@no_entries_no_rows plainHost viewer textResult eq_refl
           (fun _ => eq_refl) eq_refl).
Defined.

Lemma source_fields_converted_sample :
  isPause oddSource = false
  /\ argsStringable (args oddSource) = true
  /\ state oddSource = state_result
  /\ imageResult (result oddSource) = ret (VObject oddImage)
  /\ lookup (js "source") oddImage = Some (VObject oddFields)
  /\ ToString (property (js "media_type") oddFields) = Normal (js "7")
  /\ ToString (property (js "data") oddFields) = Normal (js "null")
  /\ exists b image,
       renderInvocation viewer oddSource = ret b
       /\ images b = [image]
       /\ srcOf image = Some (js "data:7;base64,null").
Proof.
  repeat (split; [reflexivity|]).
  apply (@source_fields_converted plainHost viewer oddSource oddImage
           oddFields (js "7") (js "null"));
    reflexivity.
Defined.

Lemma block_keys_distinct_sample :
  Forall (fun inv => isPause inv = false -> wellFormed inv = true)
    conversation
  /\ NoDup (map toolCallId
              (filter (fun inv => negb (isPause inv)) conversation))
  /\ exists a children,
       ToolInvocations
         {| toolInvocations := Some conversation; onImageClick := viewer |}
       = ret (Element div a [Items children])
       /\ map keyOf (filter isElement children)
          = [Some (js "call_1"); Some (js "call_2")]
       /\ NoDup (map keyOf (filter isElement children)).
Proof.
  assert (Forall (fun inv => isPause inv = false -> wellFormed inv = true)
            conversation) as W by (repeat constructor).
  assert (NoDup (map toolCallId
                   (filter (fun inv => negb (isPause inv)) conversation)))
    as D.
  { vm_compute. constructor; [intros [E | []]; discriminate E|].
    constructor; [intros [] | constructor]. }
  split; [exact W|]. split; [exact D|].
  apply (@block_keys_distinct plainHost viewer conversation W D).
Defined.

Lemma marks_follow_state_sample :
  renderInvocation viewer pending = ret (rendered pending)
  /\ isPause pending = false
  /\ carriesSpinner (rendered pending) = true
  /\ reducedOpacity (rendered pending) = carriesSpinner (rendered pending)
  /\ carriesCheckmark (rendered pending) = false
  /\ carriesSpinner (rendered pending) && carriesCheckmark (rendered pending)
     = false.
Proof.
  assert (renderInvocation viewer pending = ret (rendered pending)) as R.
  { apply (@ret_of_normal plainHost);
      [apply silent_renderInvocation | vm_compute; reflexivity]. }
  split; [exact R|]. split; [reflexivity|].
  exact (@marks_follow_state plainHost viewer pending (rendered pending)
           R eq_refl).
Defined.

Lemma positions_kept_sample :
  ToolInvocations
    {| toolInvocations := Some conversation; onImageClick := viewer |}
  = ret (renderedList conversation)
  /\ exists children,
       renderedList conversation
       = Element div (class ["flex"; "w-full"; "flex-col"; "gap-2"]%string)
           [Items children]
       /\ List.length children = List.length conversation
       /\ Forall2
            (fun inv child =>
               if isPause inv then child = Value VNull
               else isElement child = true
                    /\ keyOf child = Some (toolCallId inv))
            conversation children.
Proof.
  assert (ToolInvocations
            {| toolInvocations := Some conversation;
               onImageClick := viewer |}
          = ret (renderedList conversation)) as T.
  { apply (@ret_of_normal plainHost);
      [apply silent_ToolInvocations | vm_compute; reflexivity]. }
  split; [exact T|].
  exact (@positions_kept plainHost viewer conversation
           (renderedList conversation) T).
Defined.

Lemma falsy_source_no_image_sample :
  isPause nullSource = false
  /\ argsStringable (args nullSource) = true
  /\ state nullSource = state_result
  /\ imageResult (result nullSource) = ret (VObject nullSourceImage)
  /\ ToBoolean (property (js "source") nullSourceImage) = false
  /\ exists b,
       renderInvocation viewer nullSource = ret b
       /\ images b = []
       /\ carriesCheckmark b = true.
Proof.
  repeat (split; [reflexivity|]).
  apply (@falsy_source_no_image plainHost viewer nullSource nullSourceImage);
    reflexivity.
Defined.
